(** * WidgetAdapter (jupyterlab-lsp, [adapters/adapter.ts])

    A shallow embedding of the [WidgetAdapter] class: the adapter object is a
    record, its methods are computations in a small state / exception / trace
    monad, and every call that leaves the class (connection manager, LSP
    connection, update manager, signals, console) is recorded as an event. *)

From Stdlib Require Import String Ascii List Bool Arith ZArith Lia.
Import ListNotations.
Open Scope string_scope.
Open Scope list_scope.

(** ** JavaScript values used by the class

    [Completion] is the completion record of a call: it returns normally or
    throws.  A rejected promise is an abrupt completion of the async body. *)

Inductive Error : Type :=
| TypeError (what : string)        (* property access on null / undefined *)
| ExternalError (reason : string). (* rejection produced by a collaborator *)

Inductive Completion (A : Type) : Type :=
| Normal (a : A)
| Abrupt (e : Error).
Arguments Normal {A} a.
Arguments Abrupt {A} e.

(** *** Strings: [split], [startsWith], [substr] *)

(** [s.split(sep)] for a one-character separator; the result is never empty. *)
Fixpoint split (sep : ascii) (s : string) : list string :=
  match s with
  | EmptyString => [EmptyString]
  | String c s' =>
      if Ascii.eqb c sep then EmptyString :: split sep s'
      else match split sep s' with
           | [] => [String c EmptyString]
           | hd :: tl => String c hd :: tl
           end
  end.

Definition startsWith (p s : string) : bool := String.prefix p s.

(** [s.substr(start)]: the suffix of [s] from index [start]. *)
Fixpoint substr (start : nat) (s : string) : string :=
  match start, s with
  | O, _ => s
  | S n, EmptyString => EmptyString
  | S n, String _ s' => substr n s'
  end.

(** *** Ordered maps

    A JavaScript [Map] (and a plain object used as one) iterates in insertion
    order; [set] on an existing key keeps the key's position. *)

Definition JsMap (V : Type) : Type := list (string * V).

Fixpoint js_get {V} (k : string) (m : JsMap V) : option V :=
  match m with
  | [] => None
  | (k', v) :: m' => if String.eqb k k' then Some v else js_get k m'
  end.

Fixpoint js_set {V} (k : string) (v : V) (m : JsMap V) : JsMap V :=
  match m with
  | [] => [(k, v)]
  | (k', v') :: m' =>
      if String.eqb k k' then (k, v) :: m' else (k', v') :: js_set k v m'
  end.

Definition js_delete {V} (k : string) (m : JsMap V) : JsMap V :=
  filter (fun kv => negb (String.eqb k (fst kv))) m.

Definition js_values {V} (m : JsMap V) : list V := map snd m.
Definition js_keys {V} (m : JsMap V) : list string := map fst m.

(** ** The [language] getter *)

Definition mime_type_language_map : JsMap string :=
  [ ("text/x-rsrc", "r");
    ("text/x-r-source", "r");
    ("text/x-ipython", "python") ].

(** [get language()], as a function of [this.mime_type].  The first branch
    is [hasOwnProperty] followed by the indexed read.  Destructuring
    [[type, subtype]] leaves [subtype] undefined when the array has one
    element, and [subtype.startsWith] then throws. *)
Definition language (mime_type : string) : Completion string :=
  match js_get mime_type mime_type_language_map with
  | Some l => Normal l
  | None =>
      let without_parameters := hd EmptyString (split ";" mime_type) in
      let parts := split "/" without_parameters in
      let type := hd EmptyString parts in
      let subtype := nth_error parts 1 in
      if String.eqb type "application" || String.eqb type "text" then
        match subtype with
        | None => Abrupt (TypeError "subtype.startsWith")
        | Some subtype =>
            if startsWith "x-" subtype then Normal (substr 2 subtype)
            else Normal subtype
        end
      else Normal mime_type
  end.

(** ** Collaborators of the adapter

    Objects compared with [===] / [!==] carry their identity in a [_ref]
    field; [next_ref] of the adapter state is the allocation counter. *)

(** Modelled from the spec: the [IDocumentInfo] record of [../virtual/document]
    (uri-equivalent path, language, revision); the adapter only passes it on. *)
Record IDocumentInfo : Type := {
  uri : string;
  version : nat;
  languageId : string
}.

Record VirtualDocument : Type := {
  vd_ref : nat;
  id_path : string;
  path : string;
  vd_language : string;
  value : string;
  document_info : IDocumentInfo
}.

Definition with_ref (r : nat) (d : VirtualDocument) : VirtualDocument :=
  {| vd_ref := r; id_path := id_path d; path := path d;
     vd_language := vd_language d; value := value d;
     document_info := document_info d |}.

Record LSPConnection : Type := {
  conn_ref : nat;
  isReady : bool
}.

Record DocumentConnectionManager : Type := {
  connections : JsMap LSPConnection
}.

Record VirtualEditor : Type := {
  editor_name : string;
  virtual_document : VirtualDocument
}.

Definition IEditor : Type := nat.

Record IFeature : Type := {
  feature_id : string;
  (* editor name -> integration constructor *)
  editorIntegrationFactory : JsMap string
}.

Record FeatureIntegration : Type := {
  fi_constructor : string;
  fi_feature : IFeature;
  fi_virtual_document : VirtualDocument;
  fi_connection : option LSPConnection
}.

Record EditorAdapter : Type := {
  ea_ref : nat;
  ea_editor : option VirtualEditor;
  ea_virtual_document : VirtualDocument;
  ea_features : list FeatureIntegration
}.

Record IDocumentConnectionData : Type := {
  data_virtual_document : VirtualDocument;
  data_connection : option LSPConnection
}.

Record ISocketConnectionOptions : Type := {
  opt_virtual_document : VirtualDocument;
  opt_language : string;
  opt_document_path : string
}.

Record IForeignContext : Type := {
  foreign_document : VirtualDocument
}.

Inductive SaveState : Type := started | completed | failed.

Record IDocumentWidget : Type := { widget_id : string }.
Record JupyterFrontEnd : Type := { app_name : string }.

(** What the concrete subclass and the extension provide: the abstract
    members of the class and the members of [ILSPExtension] it reads. *)
Record Host : Type := {
  document_path : string;
  editors : list IEditor;
  get_editor_value : IEditor -> string;
  (* contents of [create_virtual_document()]; identity is allocated here *)
  new_virtual_document : VirtualDocument;
  (* extension.feature_manager.features *)
  features : list IFeature;
  (* extension.editor_type_manager.findBestImplementation(editors) *)
  findBestImplementation : list IEditor -> option string
}.

(** ** Events: every call that leaves the class *)

Inductive Slot : Type :=
| slot_on_save_state
| slot_on_connection_closed
| slot_dispose
| slot_onContentChanged
| slot_document_changed
| slot_on_foreign_document_opened
| slot_on_foreign_document_closed.

Inductive SignalId : Type :=
| sig_saveState                                   (* widget.context.saveState *)
| sig_closed                                      (* connection_manager.closed *)
| sig_disposed                                    (* widget.disposed *)
| sig_contentChanged                     (* widget.context.model.contentChanged *)
| sig_changed (d : VirtualDocument)
| sig_foreign_document_opened (d : VirtualDocument)
| sig_foreign_document_closed (d : VirtualDocument).

Inductive Event : Type :=
| ConsoleLog (args : list string)
| ConsoleWarn (args : list string)
| ConsoleError (args : list string)
| ConsoleWarnError (e : Error)          (* console.warn as a rejection handler *)
| SignalConnect (s : SignalId) (slot : Slot)
| SignalDisconnect (s : SignalId) (slot : Slot)
| EmitAdapterConnected (data : IDocumentConnectionData)
| AdapterDispose (a : EditorAdapter)                  (* EditorAdapter.dispose() *)
| UpdateAfterChangeLocked (root : VirtualDocument) (a : EditorAdapter)
| DisconnectDocumentSignals (d : VirtualDocument)
| UnregisterDocument (d : VirtualDocument)
| VirtualEditorDispose (e : VirtualEditor)
| ManagerConnect (options : ISocketConnectionOptions)
| SendSaved (c : LSPConnection) (info : IDocumentInfo)
| SendFullTextChange (c : LSPConnection) (text : string) (info : IDocumentInfo)
| SendOpenWhenReady (c : LSPConnection) (info : IDocumentInfo)
| UpdateDocuments (root : VirtualDocument) (blocks : list (IEditor * string)).

(** A promise handed back by the update manager. *)
Inductive Promise : Type := UpdatePromise (root : VirtualDocument).

(** ** The adapter object *)

Record WidgetAdapter : Type := {
  adapters : JsMap EditorAdapter;
  isConnected : bool;
  connection_manager : option DocumentConnectionManager;
  isDisposed : bool;
  app : option JupyterFrontEnd;
  widget : option IDocumentWidget;
  virtual_editor : option VirtualEditor;
  update_finished : option Promise;
  next_ref : nat                                   (* allocation counter *)
}.

Definition set_adapters (m : JsMap EditorAdapter) (w : WidgetAdapter) :=
  {| adapters := m; isConnected := isConnected w;
     connection_manager := connection_manager w; isDisposed := isDisposed w;
     app := app w; widget := widget w; virtual_editor := virtual_editor w;
     update_finished := update_finished w; next_ref := next_ref w |}.

Definition set_isConnected (b : bool) (w : WidgetAdapter) :=
  {| adapters := adapters w; isConnected := b;
     connection_manager := connection_manager w; isDisposed := isDisposed w;
     app := app w; widget := widget w; virtual_editor := virtual_editor w;
     update_finished := update_finished w; next_ref := next_ref w |}.

Definition set_virtual_editor (e : option VirtualEditor) (w : WidgetAdapter) :=
  {| adapters := adapters w; isConnected := isConnected w;
     connection_manager := connection_manager w; isDisposed := isDisposed w;
     app := app w; widget := widget w; virtual_editor := e;
     update_finished := update_finished w; next_ref := next_ref w |}.

Definition set_update_finished (p : option Promise) (w : WidgetAdapter) :=
  {| adapters := adapters w; isConnected := isConnected w;
     connection_manager := connection_manager w; isDisposed := isDisposed w;
     app := app w; widget := widget w; virtual_editor := virtual_editor w;
     update_finished := p; next_ref := next_ref w |}.

Definition set_next_ref (n : nat) (w : WidgetAdapter) :=
  {| adapters := adapters w; isConnected := isConnected w;
     connection_manager := connection_manager w; isDisposed := isDisposed w;
     app := app w; widget := widget w; virtual_editor := virtual_editor w;
     update_finished := update_finished w; next_ref := n |}.

(** Lines 180-186 of [dispose]: the references are dropped, the flag is set. *)
Definition release (w : WidgetAdapter) :=
  {| adapters := adapters w; isConnected := isConnected w;
     connection_manager := None; isDisposed := true;
     app := None; widget := None; virtual_editor := None;
     update_finished := update_finished w; next_ref := next_ref w |}.

(** ** The monad: state, exceptions, trace *)

Definition M (A : Type) : Type :=
  WidgetAdapter -> Completion A * WidgetAdapter * list Event.

Definition ret {A} (a : A) : M A := fun w => (Normal a, w, []).

Definition bind {A B} (m : M A) (k : A -> M B) : M B :=
  fun w =>
    match m w with
    | (Normal a, w1, t1) =>
        match k a w1 with (r, w2, t2) => (r, w2, t1 ++ t2) end
    | (Abrupt e, w1, t1) => (Abrupt e, w1, t1)
    end.

Declare Scope js_scope.
Delimit Scope js_scope with js.
Notation "x <- m ;; k" := (bind m (fun x => k))
  (at level 61, m at next level, right associativity) : js_scope.
Notation "m ;; k" := (bind m (fun _ => k))
  (at level 61, right associativity) : js_scope.
Open Scope js_scope.

Definition throw {A} (e : Error) : M A := fun w => (Abrupt e, w, []).
Definition this : M WidgetAdapter := fun w => (Normal w, w, []).
Definition modify (f : WidgetAdapter -> WidgetAdapter) : M unit :=
  fun w => (Normal tt, f w, []).
Definition tell (e : Event) : M unit := fun w => (Normal tt, w, [e]).

(** [p.catch(h)] / [try ... catch]. *)
Definition catch {A} (m : M A) (h : Error -> M A) : M A :=
  fun w =>
    match m w with
    | (Normal a, w1, t1) => (Normal a, w1, t1)
    | (Abrupt e, w1, t1) =>
        match h e w1 with (r, w2, t2) => (r, w2, t1 ++ t2) end
    end.

(** Member access [o.f] on a possibly null reference. *)
Definition deref {A} (what : string) (o : option A) : M A :=
  match o with
  | Some a => ret a
  | None => throw (TypeError what)
  end.

(** [for (let x of xs) body(x)]. *)
Fixpoint for_of {A} (xs : list A) (body : A -> M unit) : M unit :=
  match xs with
  | [] => ret tt
  | x :: xs' => body x ;; for_of xs' body
  end.

Fixpoint map_m {A B} (f : A -> M B) (xs : list A) : M (list B) :=
  match xs with
  | [] => ret []
  | x :: xs' => y <- f x ;; ys <- map_m f xs' ;; ret (y :: ys)
  end.

(** [new C(...)]: a fresh object identity. *)
Definition alloc : M nat :=
  fun w => (Normal (next_ref w), set_next_ref (S (next_ref w)) w, []).

(** Settlement of promises owned by collaborators, and what other handlers
    did to the adapter while the awaiting function was suspended. *)
Record Schedule : Type := {
  connect_settles : Completion (option LSPConnection);
  while_connecting : WidgetAdapter -> WidgetAdapter;
  update_settles : Completion unit;
  while_updating : WidgetAdapter -> WidgetAdapter
}.

Definition await {A} (settles : Completion A)
    (meanwhile : WidgetAdapter -> WidgetAdapter) : M A :=
  fun w => (settles, meanwhile w, []).

(** ** The methods of [WidgetAdapter] *)

Section Methods.

Variable host : Host.

(** [connection?.isReady] as a condition. *)
Definition optional_isReady (c : option LSPConnection) : bool :=
  match c with
  | Some c => isReady c
  | None => false
  end.

(** [virtual_document !== this.virtual_editor?.virtual_document] negated:
    reference equality with the root document of the adapter. *)
Definition is_root_document (w : WidgetAdapter) (d : VirtualDocument) : bool :=
  match virtual_editor w with
  | Some e => Nat.eqb (vd_ref d) (vd_ref (virtual_document e))
  | None => false
  end.

(** The constructor: fields and the three signal connections. *)
Definition constructor (extension_app : JupyterFrontEnd)
    (extension_connection_manager : DocumentConnectionManager)
    (w : IDocumentWidget) (heap : nat) : WidgetAdapter * list Event :=
  ({| adapters := []; isConnected := false;
      connection_manager := Some extension_connection_manager;
      isDisposed := false; app := Some extension_app; widget := Some w;
      virtual_editor := None; update_finished := None; next_ref := heap |},
   [ SignalConnect sig_saveState slot_on_save_state;
     SignalConnect sig_closed slot_on_connection_closed;
     SignalConnect sig_disposed slot_dispose ]).

Definition disconnect_adapter (d : VirtualDocument) : M unit :=
  w <- this ;;
  let adapter := js_get (id_path d) (adapters w) in
  modify (fun w => set_adapters (js_delete (id_path d) (adapters w)) w) ;;
  match adapter with
  | Some adapter => tell (AdapterDispose adapter)
  | None => ret tt
  end.

Definition dispose : M unit :=
  w <- this ;;
  if isDisposed w then ret tt
  else
    match virtual_editor w with
    | Some e => disconnect_adapter (virtual_document e)
    | None => ret tt
    end ;;
    w <- this ;;
    _ <- deref "this.widget" (widget w) ;;
    tell (SignalDisconnect sig_saveState slot_on_save_state) ;;
    _ <- deref "this.connection_manager" (connection_manager w) ;;
    tell (SignalDisconnect sig_closed slot_on_connection_closed) ;;
    tell (SignalDisconnect sig_disposed slot_dispose) ;;
    tell (SignalDisconnect sig_contentChanged slot_onContentChanged) ;;
    for_of (js_values (adapters w)) (fun adapter => tell (AdapterDispose adapter)) ;;
    modify (set_adapters []) ;;
    e <- deref "this.virtual_editor" (virtual_editor w) ;;
    tell (DisconnectDocumentSignals (virtual_document e)) ;;
    tell (VirtualEditorDispose e) ;;
    modify release.

Definition on_connection_closed (data : IDocumentConnectionData) : M unit :=
  let d := data_virtual_document data in
  tell (ConsoleLog ["LSP: connection closed, disconnecting adapter"; id_path d]) ;;
  w <- this ;;
  if negb (is_root_document w d) then ret tt
  else dispose.

Definition create_virtual_document : M VirtualDocument :=
  r <- alloc ;;
  ret (with_ref r (new_virtual_document host)).

Definition on_save_state (state : SaveState) : M unit :=
  w <- this ;;
  match virtual_editor w with
  | None => ret tt
  | Some _ =>
      match state with
      | completed =>
          manager <- deref "this.connection_manager" (connection_manager w) ;;
          for_of (js_values (connections manager)) (fun connection =>
            w <- this ;;
            e <- deref "this.virtual_editor" (virtual_editor w) ;;
            tell (SendSaved connection (document_info (virtual_document e))))
      | _ => ret tt
      end
  end.

(** Returns [undefined] ([None]) on a disposed adapter, else the promise of
    the update manager. *)
Definition update_documents : M (option Promise) :=
  w <- this ;;
  if isDisposed w then
    tell (ConsoleWarn ["Cannot update documents: adapter disposed"]) ;;
    ret None
  else
    e <- deref "this.virtual_editor" (virtual_editor w) ;;
    tell (UpdateDocuments (virtual_document e)
            (map (fun ce_editor => (ce_editor, get_editor_value host ce_editor))
                 (editors host))) ;;
    ret (Some (UpdatePromise (virtual_document e))).

Definition document_changed (d document : VirtualDocument) (is_init : bool)
    : M unit :=
  w <- this ;;
  if isDisposed w then
    tell (ConsoleWarn ["Cannot swap document: adapter disposed"])
  else
    manager <- deref "this.connection_manager" (connection_manager w) ;;
    let connection := js_get (id_path d) (connections manager) in
    let adapter := js_get (id_path d) (adapters w) in
    match connection with
    | None =>
        tell (ConsoleLog ["LSP: Skipping document update signal: connection not ready"])
    | Some connection =>
        if negb (isReady connection) then
          tell (ConsoleLog ["LSP: Skipping document update signal: connection not ready"])
        else
          match adapter with
          | None =>
              tell (ConsoleLog ["LSP: Skipping document update signal: adapter not ready"])
          | Some adapter =>
              tell (SendFullTextChange connection (value d) (document_info d)) ;;
              if negb is_init then
                e <- deref "this.virtual_editor" (virtual_editor w) ;;
                tell (UpdateAfterChangeLocked (virtual_document e) adapter)
              else ret tt
          end
    end.

(** The body of the loop of [create_adapter] (lines 527-539): one
    integration is constructed for one feature. *)
Definition integration (d : VirtualDocument)
    (connection : option LSPConnection) (feature : IFeature)
    : M FeatureIntegration :=
  w <- this ;;
  e <- deref "this.virtual_editor" (virtual_editor w) ;;
  c <- deref "featureEditorIntegrationConstructor"
         (js_get (editor_name e) (editorIntegrationFactory feature)) ;;
  ret {| fi_constructor := c; fi_feature := feature;
         fi_virtual_document := d; fi_connection := connection |}.

Definition create_adapter (d : VirtualDocument)
    (connection : option LSPConnection) (fs : option (list IFeature))
    : M EditorAdapter :=
  let fs := match fs with
            | None => features host
            | Some fs => fs
            end in
  adapter_features <- map_m (integration d connection) fs ;;
  w <- this ;;
  r <- alloc ;;
  let adapter := {| ea_ref := r; ea_editor := virtual_editor w;
                    ea_virtual_document := d;
                    ea_features := adapter_features |} in
  tell (ConsoleLog ["LSP: Adapter for"; document_path host; "is ready."]) ;;
  connection <- deref "connection" connection ;;
  tell (SendOpenWhenReady connection (document_info d)) ;;
  ret adapter.

Definition connect_adapter (d : VirtualDocument)
    (connection : option LSPConnection) (fs : option (list IFeature))
    : M EditorAdapter :=
  adapter <- create_adapter d connection fs ;;
  modify (fun w => set_adapters (js_set (id_path d) adapter (adapters w)) w) ;;
  ret adapter.

Definition get_features (w : WidgetAdapter) (d : VirtualDocument)
    : option (list FeatureIntegration) :=
  match js_get (id_path d) (adapters w) with
  | Some adapter => Some (ea_features adapter)
  | None => None
  end.

Definition on_connected (s : Schedule) (data : IDocumentConnectionData)
    : M unit :=
  let d := data_virtual_document data in
  _ <- connect_adapter (data_virtual_document data) (data_connection data) None ;;
  tell (EmitAdapterConnected data) ;;
  modify (set_isConnected true) ;;
  p <- update_documents ;;
  match p with
  | None => throw (TypeError "this.update_documents(...).then")
  | Some _ =>
      await (update_settles s) (while_updating s) ;;
      document_changed d d true ;;
      tell (ConsoleLog ["LSP: virtual document(s) for"; document_path host;
                        "have been initialized"])
  end.

Definition connect (s : Schedule) (d : VirtualDocument)
    : M IDocumentConnectionData :=
  let language := vd_language d in
  tell (ConsoleLog [("LSP: will connect using language: " ++ language)%string]) ;;
  let options := {| opt_virtual_document := d; opt_language := language;
                    opt_document_path := document_path host |} in
  w <- this ;;
  _ <- deref "this.connection_manager" (connection_manager w) ;;
  tell (ManagerConnect options) ;;
  connection <- await (connect_settles s) (while_connecting s) ;;
  on_connected s {| data_virtual_document := d; data_connection := connection |} ;;
  ret {| data_virtual_document := d; data_connection := connection |}.

(** Lines 313-318: the part of [connect_document] that runs before the
    first suspension of the caller's frame. *)
Definition connect_document_signals (d : VirtualDocument) : M unit :=
  tell (SignalConnect (sig_changed d) slot_document_changed) ;;
  tell (SignalConnect (sig_foreign_document_opened d)
          slot_on_foreign_document_opened).

(** Lines 320-335. *)
Definition connect_document_open (s : Schedule) (d : VirtualDocument)
    (send_open : bool) : M unit :=
  connection_context <-
    catch (c <- connect s d ;; ret (Some c))
          (fun e => tell (ConsoleWarnError e) ;; ret None) ;;
  if negb send_open then ret tt
  else
    match connection_context with
    | Some {| data_connection := Some connection |} =>
        tell (SendOpenWhenReady connection (document_info d))
    | _ =>
        tell (ConsoleWarn [("Connection for " ++ path d ++ " was not opened")%string])
    end.

Definition connect_document (s : Schedule) (d : VirtualDocument)
    (send_open : bool) : M unit :=
  connect_document_signals d ;;
  connect_document_open s d send_open.

Definition reload_connection (s : Schedule) : M unit :=
  w <- this ;;
  match virtual_editor w with
  | None => ret tt
  | Some e =>
      _ <- deref "this.connection_manager" (connection_manager w) ;;
      tell (UnregisterDocument (virtual_document e)) ;;
      d <- create_virtual_document ;;
      modify (set_virtual_editor
                (Some {| editor_name := editor_name e; virtual_document := d |})) ;;
      catch (connect_document s d true) (fun e => tell (ConsoleWarnError e))
  end.

Definition create_virtual_editor (d : VirtualDocument) : option VirtualEditor :=
  match findBestImplementation host (editors host) with
  | None => None
  | Some name => Some {| editor_name := name; virtual_document := d |}
  end.

Definition init_virtual : M unit :=
  d <- create_virtual_document ;;
  match create_virtual_editor d with
  | None =>
      tell (ConsoleError ["Could not initialize a VirtualEditor for adapter: "])
  | Some e => modify (set_virtual_editor (Some e))
  end.

Definition on_foreign_document_opened (s : Schedule) (context : IForeignContext)
    : M unit :=
  let d := foreign_document context in
  connect_document s d true ;;
  tell (SignalConnect (sig_foreign_document_closed d)
          slot_on_foreign_document_closed).

Definition on_foreign_document_closed (context : IForeignContext) : M unit :=
  let d := foreign_document context in
  tell (SignalDisconnect (sig_foreign_document_closed d)
          slot_on_foreign_document_closed) ;;
  tell (SignalDisconnect (sig_foreign_document_opened d)
          slot_on_foreign_document_opened) ;;
  tell (SignalDisconnect (sig_changed d) slot_document_changed).

Definition connect_contentChanged_signal : M unit :=
  w <- this ;;
  _ <- deref "this.widget" (widget w) ;;
  tell (SignalConnect sig_contentChanged slot_onContentChanged).

Definition onContentChanged (s : Schedule) : M unit :=
  p <- update_documents ;;
  match p with
  | None => throw (TypeError "this.update_documents(...).catch")
  | Some p =>
      modify (set_update_finished (Some p)) ;;
      catch (await (update_settles s) (while_updating s))
            (fun e => tell (ConsoleWarnError e))
  end.

End Methods.

(** ** The language rule as the specification words it

    A second definition, independent of [split]: the mime type is cut by
    string concatenation. *)

Fixpoint occurs (c : ascii) (s : string) : bool :=
  match s with
  | EmptyString => false
  | String c' s' => Ascii.eqb c' c || occurs c s'
  end.

(** Neither a parameter separator nor a type separator occurs in [s]. *)
Definition plain (s : string) : Prop :=
  occurs ";" s = false /\ occurs "/" s = false.

(** [rest] is empty or starts a new [;] or [/] segment. *)
Definition boundary (rest : string) : Prop :=
  rest = EmptyString \/
  exists r, rest = String ";" r \/ rest = String "/" r.

Definition remove_x_prefix (subtype : string) : string :=
  match subtype with
  | String "x" (String "-" s) => s
  | _ => subtype
  end.

Definition mapped_mime_type (m : string) : Prop :=
  exists l, In (m, l) mime_type_language_map.

Inductive language_spec : string -> string -> Prop :=
| language_mapped m l :
    In (m, l) mime_type_language_map ->
    language_spec m l
| language_subtype m type subtype rest :
    ~ mapped_mime_type m ->
    m = (type ++ "/" ++ subtype ++ rest)%string ->
    plain type -> plain subtype -> boundary rest ->
    type = "application" \/ type = "text" ->
    language_spec m (remove_x_prefix subtype)
| language_other m type rest :
    ~ mapped_mime_type m ->
    m = (type ++ rest)%string ->
    plain type -> boundary rest ->
    type <> "application" -> type <> "text" ->
    language_spec m m.

(** The mime types on which the getter has no subtype to look at. *)
Definition subtype_missing (m : string) : Prop :=
  exists type rest,
    m = (type ++ rest)%string /\
    (type = "application" \/ type = "text") /\
    (rest = EmptyString \/ exists r, rest = String ";" r).

(** ** Vocabulary of the statements *)

(** The four signal disconnections of [dispose] (lines 161-167). *)
Definition teardown_signals : list Event :=
  [ SignalDisconnect sig_saveState slot_on_save_state;
    SignalDisconnect sig_closed slot_on_connection_closed;
    SignalDisconnect sig_disposed slot_dispose;
    SignalDisconnect sig_contentChanged slot_onContentChanged ].

(** The adapter as the constructor leaves it. *)
Definition fresh_adapter : WidgetAdapter :=
  fst (constructor {| app_name := "JupyterLab" |} {| connections := [] |}
         {| widget_id := "widget-1" |} 0).

(** The log line of [on_connection_closed]. *)
Definition closed_log (data : IDocumentConnectionData) : Event :=
  ConsoleLog ["LSP: connection closed, disconnecting adapter";
              id_path (data_virtual_document data)].

(** The connection the manager holds for the id_path of [d], if any. *)
Definition registered_connection (w : WidgetAdapter) (d : VirtualDocument)
    : option LSPConnection :=
  match connection_manager w with
  | Some manager => js_get (id_path d) (connections manager)
  | None => None
  end.

(** Started in a state satisfying [I], the computation emits only events
    satisfying [Ev] and ends, normally or not, in a state satisfying [I]. *)
Definition preserves {A} (I : WidgetAdapter -> Prop) (Ev : Event -> Prop)
    (m : M A) : Prop :=
  forall w, I w ->
    match m w with
    | (_, w', t) => Forall Ev t /\ I w'
    end.

(** An event other than the feature refresh. *)
Definition not_refresh (ev : Event) : Prop :=
  match ev with
  | UpdateAfterChangeLocked _ _ => False
  | _ => True
  end.

(** Every feature has an integration constructor for the editor [e]. *)
Definition constructible (host : Host) (e : VirtualEditor) : Prop :=
  Forall (fun feature =>
            js_get (editor_name e) (editorIntegrationFactory feature) <> None)
         (features host).

Definition adapter_ready_log (host : Host) : Event :=
  ConsoleLog ["LSP: Adapter for"; document_path host; "is ready."].

Definition initialized_log (host : Host) : Event :=
  ConsoleLog ["LSP: virtual document(s) for"; document_path host;
              "have been initialized"].

(** The events of [on_connected] up to the suspension on the update. *)
Definition connected_events (host : Host) (d : VirtualDocument)
    (c : LSPConnection) (e : VirtualEditor) : list Event :=
  [ adapter_ready_log host;
    SendOpenWhenReady c (document_info d);
    EmitAdapterConnected {| data_virtual_document := d; data_connection := Some c |};
    UpdateDocuments (virtual_document e)
      (map (fun ce_editor => (ce_editor, get_editor_value host ce_editor))
           (editors host)) ].

Definition connecting_log (d : VirtualDocument) : Event :=
  ConsoleLog [("LSP: will connect using language: " ++ vd_language d)%string].

Definition connecting_events (host : Host) (d : VirtualDocument) : list Event :=
  [ SignalConnect (sig_changed d) slot_document_changed;
    SignalConnect (sig_foreign_document_opened d) slot_on_foreign_document_opened;
    connecting_log d ].

Definition connect_request (host : Host) (d : VirtualDocument) : Event :=
  ManagerConnect {| opt_virtual_document := d; opt_language := vd_language d;
                    opt_document_path := document_path host |}.

Definition not_opened_warning (d : VirtualDocument) : Event :=
  ConsoleWarn [("Connection for " ++ path d ++ " was not opened")%string].

(** The replacement document and the adapter once it is installed. *)
Definition replacement (host : Host) (w : WidgetAdapter) : VirtualDocument :=
  with_ref (next_ref w) (new_virtual_document host).

Definition reloaded (host : Host) (e : VirtualEditor) (w : WidgetAdapter)
    : WidgetAdapter :=
  set_virtual_editor
    (Some {| editor_name := editor_name e;
             virtual_document := replacement host w |})
    (set_next_ref (S (next_ref w)) w).

(** What the initial change may emit for the document [d]: a log line, or
    the full text of [d] with its document-info, sent to the connection the
    manager holds for the id_path of [d]. *)
Definition initial_event (w : WidgetAdapter) (d : VirtualDocument) (ev : Event)
    : Prop :=
  match ev with
  | ConsoleLog _ => True
  | SendFullTextChange c text info =>
      registered_connection w d = Some c /\
      text = value d /\ info = document_info d
  | _ => False
  end.

(** Handlers running during a suspension that leave the adapter alive,
    initialized and attached to its manager. *)
Definition keeps_adapter (f : WidgetAdapter -> WidgetAdapter) : Prop :=
  forall w,
    virtual_editor (f w) = virtual_editor w /\
    isDisposed (f w) = isDisposed w /\
    (connection_manager w <> None -> connection_manager (f w) <> None).

(** The bundles of a map: keys are distinct, bundles are distinct objects,
    and every bundle was allocated before [n]. *)
Definition bundles_ok (m : JsMap EditorAdapter) (n : nat) : Prop :=
  NoDup (js_keys m) /\
  NoDup (map ea_ref (js_values m)) /\
  Forall (fun a => ea_ref a < n) (js_values m).

Definition one_bundle_per_document (w : WidgetAdapter) : Prop :=
  bundles_ok (adapters w) (next_ref w).

(** The references of the bundles disposed along a trace. *)
Definition disposed (t : list Event) : list nat :=
  flat_map (fun ev => match ev with
                      | AdapterDispose a => [ea_ref a]
                      | _ => []
                      end) t.

(** *** A notebook adapter, for the instances *)

Definition notebook_document : VirtualDocument :=
  {| vd_ref := 1; id_path := "nb#py"; path := "nb.ipynb";
     vd_language := "python"; value := "print(1)";
     document_info := {| uri := "nb.ipynb"; version := 0; languageId := "python" |} |}.

Definition foreign_r_document : VirtualDocument :=
  {| vd_ref := 5; id_path := "nb#py.r"; path := "nb.ipynb";
     vd_language := "r"; value := "x <- 1";
     document_info := {| uri := "nb.ipynb.r"; version := 0; languageId := "r" |} |}.

Definition renamed_document : VirtualDocument :=
  {| vd_ref := 0; id_path := "renamed#py"; path := "renamed.ipynb";
     vd_language := "python"; value := "print(1)";
     document_info := {| uri := "renamed.ipynb"; version := 0; languageId := "python" |} |}.

Definition python_connection : LSPConnection := {| conn_ref := 2; isReady := true |}.
Definition new_connection : LSPConnection := {| conn_ref := 7; isReady := true |}.

Definition notebook_manager : DocumentConnectionManager :=
  {| connections := [("nb#py", python_connection)] |}.

Definition notebook_editor : VirtualEditor :=
  {| editor_name := "CodeMirrorEditor"; virtual_document := notebook_document |}.

Definition hover_feature : IFeature :=
  {| feature_id := "hover";
     editorIntegrationFactory := [("CodeMirrorEditor", "HoverCM")] |}.

Definition notebook_host : Host :=
  {| document_path := "renamed.ipynb";
     editors := [0];
     get_editor_value := fun _ => "print(1)";
     new_virtual_document := renamed_document;
     features := [hover_feature];
     findBestImplementation := fun _ => Some "CodeMirrorEditor" |}.

Definition notebook_bundle : EditorAdapter :=
  {| ea_ref := 3; ea_editor := Some notebook_editor;
     ea_virtual_document := notebook_document; ea_features := [] |}.

Definition notebook_widget : IDocumentWidget := {| widget_id := "widget-1" |}.

(** An initialized, connected adapter. *)
Definition notebook_adapter : WidgetAdapter :=
  {| adapters := [("nb#py", notebook_bundle)]; isConnected := true;
     connection_manager := Some notebook_manager; isDisposed := false;
     app := Some {| app_name := "JupyterLab" |};
     widget := Some notebook_widget;
     virtual_editor := Some notebook_editor; update_finished := None;
     next_ref := 4 |}.

Definition disposed_adapter : WidgetAdapter :=
  snd (fst (dispose notebook_adapter)).

(** The connection is acquired, the update resolves, nothing else runs. *)
Definition calm : Schedule :=
  {| connect_settles := Normal (Some new_connection);
     while_connecting := fun w => w;
     update_settles := Normal tt;
     while_updating := fun w => w |}.

(** The adapter is disposed while the connection is being acquired. *)
Definition disposing : Schedule :=
  {| connect_settles := Normal (Some new_connection);
     while_connecting := fun w => snd (fst (dispose w));
     update_settles := Normal tt;
     while_updating := fun w => w |}.

(** A host without features, and one for which no virtual editor exists. *)
Definition bare_host : Host :=
  {| document_path := "renamed.ipynb";
     editors := [0];
     get_editor_value := fun _ => "print(1)";
     new_virtual_document := renamed_document;
     features := [];
     findBestImplementation := fun _ => Some "CodeMirrorEditor" |}.

Definition headless_host : Host :=
  {| document_path := "nb.ipynb";
     editors := [];
     get_editor_value := fun _ => "";
     new_virtual_document := notebook_document;
     features := [hover_feature];
     findBestImplementation := fun _ => None |}.

(** The language server is not installed. *)
Definition no_server : Schedule :=
  {| connect_settles := Abrupt (ExternalError "server not installed");
     while_connecting := fun w => w;
     update_settles := Normal tt;
     while_updating := fun w => w |}.

(** ** [StatusMessage] *)

Module StatusMessage.

(** The timer table of [window], as the HTML standard describes it:
    [setTimeout] registers the callback under a new handle, an integer
    greater than zero; [clearTimeout] drops the entry of a handle and
    ignores a handle that is not in the table. *)
Record Window : Type := {
  pending : list (nat * Z);              (* handle, delay in ms *)
  next_handle : nat
}.

Definition setTimeout (delay : Z) (win : Window) : nat * Window :=
  (next_handle win,
   {| pending := pending win ++ [(next_handle win, delay)];
      next_handle := S (next_handle win) |}).

Definition clearTimeout (h : nat) (win : Window) : Window :=
  {| pending := filter (fun e => negb (Nat.eqb (fst e) h)) (pending win);
     next_handle := next_handle win |}.

Definition is_pending (h : nat) (win : Window) : bool :=
  existsb (fun e => Nat.eqb (fst e) h) (pending win).

(** The object: [timer] is [null] ([None]) or a number. *)
Record t : Type := {
  message : string;
  timer : option nat
}.

(** [changed.emit()], with the message the listeners then read. *)
Inductive Emitted : Type := Changed (shown : string).

Definition State : Type := (t * Window)%type.

Definition constructor : t := {| message := ""; timer := None |}.

Definition expire_timer (s : State) : State :=
  let (this, win) := s in
  match timer this with
  | Some h => ({| message := message this; timer := Some 0 |}, clearTimeout h win)
  | None => s
  end.

Definition set (msg : string) (timeout : Z) (s : State) : State * list Emitted :=
  let (this, win) := expire_timer s in
  let this := {| message := msg; timer := timer this |} in
  if Z.eqb timeout (-1) then ((this, win), [Changed msg])
  else
    let (h, win) := setTimeout timeout win in
    (({| message := message this; timer := Some h |}, win), [Changed msg]).

(** [set(message)] with the default [timeout = 1000 * 3]. *)
Definition set_default (msg : string) (s : State) : State * list Emitted :=
  set msg (1000 * 3)%Z s.

Definition clear (s : State) : State * list Emitted :=
  let (this, win) := s in
  (({| message := ""; timer := timer this |}, win), [Changed ""]).

(** The browser runs the callback registered under [h], if [h] is still
    in the table: the callback is [this.clear], and the entry is spent. *)
Definition fire (h : nat) (s : State) : State * list Emitted :=
  let (this, win) := s in
  if is_pending h win then clear (this, clearTimeout h win)
  else (s, []).

(** What can happen to a status message. *)
Inductive Op : Type :=
| OpSet (msg : string) (timeout : Z)
| OpClear
| OpFire (h : nat).

Definition step (op : Op) (s : State) : State * list Emitted :=
  match op with
  | OpSet msg timeout => set msg timeout s
  | OpClear => clear s
  | OpFire h => fire h s
  end.

Fixpoint run (ops : list Op) (s : State) : State * list Emitted :=
  match ops with
  | [] => (s, [])
  | op :: ops' =>
      let (s1, t1) := step op s in
      let (s2, t2) := run ops' s1 in
      (s2, t1 ++ t2)
  end.

(** The table holds nothing but the timer the object remembers. *)
Definition tracked (s : State) : Prop :=
  let (this, win) := s in
  0 < next_handle win /\
  Forall (fun e => 0 < fst e < next_handle win) (pending win) /\
  (pending win = [] \/
   exists h delay, pending win = [(h, delay)] /\ timer this = Some h).

(** A page without timers. *)
Definition idle : Window := {| pending := []; next_handle := 1 |}.

End StatusMessage.

(** ** Command contexts *)

Record IRootPosition : Type := { root_line : nat; root_ch : nat }.
Record IVirtualPosition : Type := { virtual_line : nat; virtual_ch : nat }.

Record ICommandContext : Type := {
  ctx_document : VirtualDocument;
  ctx_connection : option LSPConnection;
  ctx_virtual_position : IVirtualPosition;
  ctx_root_position : IRootPosition;
  ctx_features : option (list FeatureIntegration);
  ctx_editor : VirtualEditor;
  ctx_app : option JupyterFrontEnd
}.

(** The position services of the virtual editor. *)
Record Positions : Type := {
  document_at_root_position : IRootPosition -> VirtualDocument;
  root_position_to_virtual_position : IRootPosition -> IVirtualPosition
}.

Section Getters.

Variable host : Host.
Variable positions : Positions.

(** [get widget_id()]; the field [id] of the widget is [widget_id]. *)
Definition get_widget_id : M string :=
  w <- this ;;
  wd <- deref "this.widget" (widget w) ;;
  ret (widget_id wd).

Definition has_multiple_editors : bool :=
  Nat.ltb 1 (length (editors host)).

Definition get_context (root_position : IRootPosition) : M ICommandContext :=
  w <- this ;;
  e <- deref "this.virtual_editor" (virtual_editor w) ;;
  let document := document_at_root_position positions root_position in
  let virtual_position :=
    root_position_to_virtual_position positions root_position in
  manager <- deref "this.connection_manager" (connection_manager w) ;;
  ret {| ctx_document := document;
         ctx_connection := js_get (id_path document) (connections manager);
         ctx_virtual_position := virtual_position;
         ctx_root_position := root_position;
         ctx_features := get_features w document;
         ctx_editor := e;
         ctx_app := app w |}.

End Getters.

(** ** Vocabulary of the further statements *)

(** The features [create_adapter] integrates: the argument, or by default
    those of the feature manager. *)
Definition chosen_features (host : Host) (fs : option (list IFeature))
    : list IFeature :=
  match fs with
  | None => features host
  | Some fs => fs
  end.

(** The signal connections and disconnections along a trace. *)
Definition connected (t : list Event) : list (SignalId * Slot) :=
  flat_map (fun ev => match ev with
                      | SignalConnect s slot => [(s, slot)]
                      | _ => []
                      end) t.

Definition disconnected (t : list Event) : list (SignalId * Slot) :=
  flat_map (fun ev => match ev with
                      | SignalDisconnect s slot => [(s, slot)]
                      | _ => []
                      end) t.

(** The open requests along a trace. *)
Definition opened (t : list Event) : list (LSPConnection * IDocumentInfo) :=
  flat_map (fun ev => match ev with
                      | SendOpenWhenReady c info => [(c, info)]
                      | _ => []
                      end) t.

(** An event that stays inside the page: console or signal wiring. *)
Definition local_event (ev : Event) : Prop :=
  match ev with
  | ConsoleLog _ | ConsoleWarn _ | ConsoleError _ | ConsoleWarnError _ => True
  | SignalConnect _ _ | SignalDisconnect _ _ => True
  | _ => False
  end.

(** An event other than a signal connection. *)
Definition not_connect (ev : Event) : Prop :=
  match ev with
  | SignalConnect _ _ => False
  | _ => True
  end.

(** What [connect_document] does once [connect] has settled with [r]:
    the rejection is logged, and with [send_open] the open request goes to
    the connection of the context, or the warning is printed. *)
Definition connection_outcome (d : VirtualDocument) (send_open : bool)
    (r : Completion IDocumentConnectionData) : list Event :=
  match r with
  | Abrupt err => [ConsoleWarnError err]
  | Normal _ => []
  end ++
  if send_open then
    match r with
    | Normal {| data_connection := Some c |} =>
        [SendOpenWhenReady c (document_info d)]
    | _ => [not_opened_warning d]
    end
  else [].

(** The signals of the widget and of the manager that the adapter
    listens to. *)
Definition widget_signals : list (SignalId * Slot) :=
  [ (sig_saveState, slot_on_save_state);
    (sig_closed, slot_on_connection_closed);
    (sig_disposed, slot_dispose);
    (sig_contentChanged, slot_onContentChanged) ].

(** The three signals of a foreign document. *)
Definition foreign_signals (d : VirtualDocument) : list (SignalId * Slot) :=
  [ (sig_changed d, slot_document_changed);
    (sig_foreign_document_opened d, slot_on_foreign_document_opened);
    (sig_foreign_document_closed d, slot_on_foreign_document_closed) ].

(** A disconnection, if any, of one of the [widget_signals]. *)
Definition widget_disconnect (ev : Event) : Prop :=
  match ev with
  | SignalDisconnect s slot => In (s, slot) widget_signals
  | _ => True
  end.

(** An adapter in use: not disposed, with its widget and its manager. *)
Definition live (w : WidgetAdapter) : Prop :=
  isDisposed w = false /\ widget w <> None /\ connection_manager w <> None.

(** The computation [m] keeps the invariant of the adapters map. *)
Definition keeps_one_bundle {A} (m : M A) : Prop :=
  preserves one_bundle_per_document (fun _ => True) m.

(** *** Further instances *)

(** The manager resolves the acquisition without a connection. *)
Definition no_connection : Schedule :=
  {| connect_settles := Normal None;
     while_connecting := fun w => w;
     update_settles := Normal tt;
     while_updating := fun w => w |}.

(** The connection is acquired, the update of the documents is rejected. *)
Definition update_fails : Schedule :=
  {| connect_settles := Normal (Some new_connection);
     while_connecting := fun w => w;
     update_settles := Abrupt (ExternalError "update failed");
     while_updating := fun w => w |}.

(** Every position lies in the foreign document. *)
Definition foreign_positions : Positions :=
  {| document_at_root_position := fun _ => foreign_r_document;
     root_position_to_virtual_position :=
       fun p => {| virtual_line := root_line p; virtual_ch := root_ch p |} |}.

(** A status message with a pending timer. *)
Definition busy_status : StatusMessage.State :=
  fst (StatusMessage.set_default "Connecting"
         (StatusMessage.constructor, StatusMessage.idle)).

(** ** Vocabulary of the reload and of bundle replacement *)

(** The connection a message is sent to. *)
Definition addressee (ev : Event) : option LSPConnection :=
  match ev with
  | SendSaved c _ => Some c
  | SendFullTextChange c _ _ => Some c
  | SendOpenWhenReady c _ => Some c
  | _ => None
  end.

(** The connection the manager hands out for the request of [connect], if
    the request resolves with one. *)
Definition acquired_connection (s : Schedule) : option LSPConnection :=
  match connect_settles s with
  | Normal connection => connection
  | Abrupt _ => None
  end.

(** What the connect chain for the document [d] may emit once the manager
    has been asked, [acquired] being the connection it handed out and [w']
    the adapter at the end of the chain: logs, the [adapterConnected]
    signal for [d] and [acquired], the update request, open requests for
    [d] sent to [acquired], and the full text of [d] sent to the connection
    the manager registers under the id_path of [d].  Nothing else: no save
    notification, no further request to the manager, no disposal. *)
Definition connection_message (acquired : option LSPConnection)
    (w' : WidgetAdapter) (d : VirtualDocument) (ev : Event) : Prop :=
  match ev with
  | ConsoleLog _ | ConsoleWarn _ | ConsoleWarnError _ => True
  | UpdateDocuments _ _ => True
  | EmitAdapterConnected data =>
      data = {| data_virtual_document := d; data_connection := acquired |}
  | SendOpenWhenReady c info =>
      acquired = Some c /\ info = document_info d
  | SendFullTextChange c text info =>
      registered_connection w' d = Some c /\
      text = value d /\ info = document_info d
  | _ => False
  end.

(** The manager answers the request for the renamed notebook with the
    session it already has for the language: the connection that served
    the notebook before the rename. *)
Definition reusing : Schedule :=
  {| connect_settles := Normal (Some python_connection);
     while_connecting := fun w => w;
     update_settles := Normal tt;
     while_updating := fun w => w |}.

(** The notebook is moved and its document keeps the id_path. *)
Definition moved_document : VirtualDocument :=
  {| vd_ref := 0; id_path := "nb#py"; path := "moved/nb.ipynb";
     vd_language := "python"; value := "print(1)";
     document_info :=
       {| uri := "moved/nb.ipynb"; version := 0; languageId := "python" |} |}.

Definition moved_host : Host :=
  {| document_path := "moved/nb.ipynb";
     editors := [0];
     get_editor_value := fun _ => "print(1)";
     new_virtual_document := moved_document;
     features := [hover_feature];
     findBestImplementation := fun _ => Some "CodeMirrorEditor" |}.

(** The calls of a trace other than the disposal of bundles. *)
Definition teardown_calls (t : list Event) : list Event :=
  filter (fun ev => match ev with
                    | AdapterDispose _ => false
                    | _ => true
                    end) t.

(** An adapter whose manager already holds a connection, before
    [init_virtual]. *)
Definition unopened_adapter : WidgetAdapter :=
  fst (constructor {| app_name := "JupyterLab" |} notebook_manager
         notebook_widget 4).

(** The foreign document is opened, closed, and opened again under the
    same id_path; the allocation counter starts past the objects of the
    instances. *)
Definition reopened_adapter : WidgetAdapter :=
  let context := {| foreign_document := foreign_r_document |} in
  let w1 := snd (fst (on_foreign_document_opened notebook_host calm context
                        (set_next_ref 8 notebook_adapter))) in
  let w2 := snd (fst (on_foreign_document_closed context w1)) in
  snd (fst (on_foreign_document_opened notebook_host calm context w2)).

(** * Properties *)

(** ** Strings *)

Lemma split_not_nil sep s : split sep s <> [].
Proof.
  destruct s as [|c s]; simpl; [discriminate|].
  destruct (Ascii.eqb c sep); [discriminate|].
  destruct (split sep s); discriminate.
Qed.

Lemma split_plain sep s : occurs sep s = false -> split sep s = [s].
Proof.
  induction s as [|c s IH]; simpl; intros H; [reflexivity|].
  apply orb_false_iff in H. destruct H as [Hc Hs].
  rewrite Hc, (IH Hs). reflexivity.
Qed.

Lemma split_app sep a b :
  occurs sep a = false ->
  split sep (a ++ String sep b) = a :: split sep b.
Proof.
  induction a as [|c a IH]; simpl; intros H.
  - rewrite Ascii.eqb_refl. reflexivity.
  - apply orb_false_iff in H. destruct H as [Hc Ha].
    rewrite Hc, (IH Ha). reflexivity.
Qed.

Lemma occurs_app c a b : occurs c (a ++ b) = occurs c a || occurs c b.
Proof.
  induction a as [|x a IH]; simpl; [reflexivity|].
  rewrite IH, orb_assoc. reflexivity.
Qed.

(** Every string is cut at the first separator. *)
Lemma split_cut sep s :
  exists a tl,
    split sep s = a :: tl /\ occurs sep a = false /\
    ((tl = [] /\ s = a) \/
     (exists b, s = (a ++ String sep b)%string /\ tl = split sep b)).
Proof.
  induction s as [|c s IH]; simpl.
  - exists EmptyString, []. repeat split; auto.
  - destruct IH as (a & tl & E & Ha & Hs).
    destruct (Ascii.eqb c sep) eqn:Hc.
    + apply Ascii.eqb_eq in Hc. subst c.
      exists EmptyString, (split sep s). repeat split; auto.
      right. exists s. auto.
    + rewrite E. exists (String c a), tl. simpl. rewrite Hc, Ha.
      repeat split; auto.
      destruct Hs as [[-> ->] | (b & -> & ->)]; [left; auto|].
      right. exists b. auto.
Qed.

Lemma js_get_In {V} k (m : JsMap V) v : js_get k m = Some v -> In (k, v) m.
Proof.
  induction m as [|[k' v'] m IH]; simpl; [discriminate|].
  destruct (String.eqb k k') eqn:E.
  - apply String.eqb_eq in E. intros [= ->]. subst. auto.
  - auto.
Qed.

Lemma js_get_None_In {V} k (m : JsMap V) v : js_get k m = None -> ~ In (k, v) m.
Proof.
  induction m as [|[k' v'] m IH]; simpl; intros H; [tauto|].
  destruct (String.eqb k k') eqn:E; [discriminate|].
  intros [[= -> ->] | HIn]; [rewrite String.eqb_refl in E; discriminate|].
  exact (IH H HIn).
Qed.

Lemma mapped_get m l :
  In (m, l) mime_type_language_map ->
  js_get m mime_type_language_map = Some l.
Proof.
  simpl. intros [[= <- <-] | [[= <- <-] | [[= <- <-] | []]]]; reflexivity.
Qed.

Lemma unmapped_get m :
  ~ mapped_mime_type m -> js_get m mime_type_language_map = None.
Proof.
  intros H. destruct (js_get m mime_type_language_map) eqn:E; [|reflexivity].
  exfalso. apply H. exists s. exact (js_get_In _ _ _ E).
Qed.

Lemma startsWith_x s :
  (if startsWith "x-" s then substr 2 s else s) = remove_x_prefix s.
Proof.
  unfold startsWith.
  destruct s as [|a [|b s]].
  - reflexivity.
  - destruct a as [[] [] [] [] [] [] [] []]; reflexivity.
  - destruct a as [[] [] [] [] [] [] [] []]; try reflexivity.
    destruct b as [[] [] [] [] [] [] [] []]; try reflexivity.
    destruct s; reflexivity.
Qed.

Lemma append_empty_r s : (s ++ "")%string = s.
Proof. induction s; simpl; congruence. Qed.

Lemma hd_split_app sep a b :
  occurs sep a = false ->
  hd EmptyString (split sep (a ++ b)) = (a ++ hd EmptyString (split sep b))%string.
Proof.
  induction a as [|c a IH]; simpl; intros H; [reflexivity|].
  apply orb_false_iff in H. destruct H as [Hc Ha]. rewrite Hc.
  specialize (IH Ha).
  destruct (split sep (a ++ b)) as [|h t] eqn:E.
  - now elim (split_not_nil sep (a ++ b)%string).
  - simpl in *. now rewrite IH.
Qed.

(** What is left of [rest] once the parameters are dropped. *)
Lemma boundary_without_parameters rest :
  boundary rest ->
  hd EmptyString (split ";" rest) = EmptyString \/
  exists r, hd EmptyString (split ";" rest) = String "/" r.
Proof.
  intros [-> | (r & [-> | ->])].
  - left. reflexivity.
  - left. reflexivity.
  - right. simpl. destruct (split ";" r) as [|h t] eqn:E.
    + now elim (split_not_nil ";" r).
    + simpl. eauto.
Qed.

Lemma split_type_subtype type subtype rest :
  plain type -> plain subtype -> boundary rest ->
  exists tl,
    split "/" (hd EmptyString (split ";" (type ++ "/" ++ subtype ++ rest)))
    = type :: subtype :: tl.
Proof.
  intros [Ht1 Ht2] [Hs1 Hs2] Hb.
  rewrite (hd_split_app _ _ _ Ht1).
  change ("/" ++ subtype ++ rest)%string with (String "/" (subtype ++ rest)).
  simpl hd at 1.
  destruct (split ";" (subtype ++ rest)) as [|h t] eqn:E;
    [now elim (split_not_nil ";" (subtype ++ rest)%string)|].
  simpl hd. rewrite (split_app _ _ _ Ht2).
  assert (Hh : h = (subtype ++ hd EmptyString (split ";" rest))%string).
  { pose proof (hd_split_app _ _ rest Hs1) as H. rewrite E in H. exact H. }
  subst h.
  destruct (boundary_without_parameters _ Hb) as [-> | (r & ->)].
  - exists []. rewrite append_empty_r. now rewrite split_plain.
  - exists (split "/" r). now rewrite (split_app _ _ _ Hs2).
Qed.

Lemma split_type_only type rest :
  plain type -> boundary rest ->
  hd EmptyString (split "/" (hd EmptyString (split ";" (type ++ rest)))) = type.
Proof.
  intros [Ht1 Ht2] Hb.
  rewrite (hd_split_app _ _ _ Ht1), (hd_split_app _ _ _ Ht2).
  destruct (boundary_without_parameters _ Hb) as [-> | (r & ->)]; simpl.
  - apply append_empty_r.
  - apply append_empty_r.
Qed.

Lemma language_sound m l : language_spec m l -> language m = Normal l.
Proof.
  intros H. unfold language. destruct H as
    [m l HIn | m type subtype rest Hm -> Ht Hs Hb Hty | m type rest Hm -> Ht Hb H1 H2].
  - now rewrite (mapped_get _ _ HIn).
  - rewrite (unmapped_get _ Hm).
    destruct (split_type_subtype _ _ _ Ht Hs Hb) as (tl & ->). simpl hd. simpl nth_error.
    replace (String.eqb type "application" || String.eqb type "text") with true.
    + apply f_equal with (f := fun x => x).
      rewrite <- (startsWith_x subtype).
      now destruct (startsWith "x-" subtype).
    + symmetry. destruct Hty as [-> | ->]; reflexivity.
  - rewrite (unmapped_get _ Hm), (split_type_only _ _ Ht Hb).
    apply String.eqb_neq in H1, H2. now rewrite H1, H2.
Qed.

Lemma append_assoc a b c : ((a ++ b) ++ c)%string = (a ++ (b ++ c))%string.
Proof. induction a; simpl; congruence. Qed.

Lemma not_mapped m : js_get m mime_type_language_map = None -> ~ mapped_mime_type m.
Proof. intros H (l & HIn). exact (js_get_None_In _ _ _ H HIn). Qed.

(** The getter, read off the first separators of the mime type. *)
Lemma language_cases m :
  js_get m mime_type_language_map = None ->
  exists type rest,
    m = (type ++ rest)%string /\ plain type /\ boundary rest /\
    hd EmptyString (split "/" (hd EmptyString (split ";" m))) = type /\
    ((nth_error (split "/" (hd EmptyString (split ";" m))) 1 = None /\
      (rest = EmptyString \/ exists r, rest = String ";" r))
     \/
     (exists subtype rest',
        nth_error (split "/" (hd EmptyString (split ";" m))) 1 = Some subtype /\
        rest = ("/" ++ subtype ++ rest')%string /\
        plain subtype /\ boundary rest')).
Proof.
  intros _.
  destruct (split_cut ";" m) as (a & tl & E & Ha & Hm). rewrite E. simpl hd.
  assert (Hm' : exists p, m = (a ++ p)%string /\
                 (p = EmptyString \/ exists r, p = String ";" r)).
  { destruct Hm as [[_ ->] | (b & -> & _)].
    - exists EmptyString. rewrite append_empty_r. auto.
    - exists (String ";" b). eauto. }
  clear E Hm tl. destruct Hm' as (p & -> & Hp).
  destruct (split_cut "/" a) as (type & tl & E & Ht & Hs). rewrite E. simpl hd.
  destruct Hs as [[-> ->] | (b & -> & ->)].
  - exists type, p. repeat split; auto.
    destruct Hp as [-> | (r & ->)]; [left | right]; eauto.
  - rewrite occurs_app in Ha. apply orb_false_iff in Ha. destruct Ha as [Ha1 Ha2].
    simpl in Ha2.
    destruct (split_cut "/" b) as (subtype & tl & E2 & Hsub & Hb).
    assert (Hb' : exists q, b = (subtype ++ q)%string /\
                   (q = EmptyString \/ exists r, q = String "/" r)).
    { destruct Hb as [[_ ->] | (c & -> & _)].
      - exists EmptyString. rewrite append_empty_r. auto.
      - exists (String "/" c). eauto. }
    destruct Hb' as (q & -> & Hq). clear Hb.
    rewrite occurs_app in Ha2. apply orb_false_iff in Ha2. destruct Ha2 as [Ha2 Ha3].
    exists type, (String "/" (subtype ++ q) ++ p)%string. repeat split; auto.
    + now rewrite append_assoc.
    + right. simpl. eauto.
    + right. exists subtype, (q ++ p)%string. rewrite E2. simpl. repeat split; auto.
      * now rewrite append_assoc.
      * destruct Hq as [-> | (r & ->)].
        -- simpl. destruct Hp as [-> | (r & ->)]; [left | right]; eauto.
        -- right. simpl. eauto.
Qed.

Lemma language_complete m l : language m = Normal l -> language_spec m l.
Proof.
  unfold language. destruct (js_get m mime_type_language_map) as [l'|] eqn:E.
  - intros [= <-]. apply language_mapped. exact (js_get_In _ _ _ E).
  - destruct (language_cases m E) as (type & rest & Hm & Ht & Hr & -> & Hsub).
    destruct (String.eqb type "application" || String.eqb type "text") eqn:Hty.
    + destruct Hsub as [[-> _] | (subtype & rest' & -> & -> & Hs & Hr')];
        [discriminate|].
      intros H.
      assert (l = remove_x_prefix subtype) as ->.
      { rewrite <- startsWith_x. destruct (startsWith "x-" subtype); congruence. }
      apply language_subtype with (type := type) (rest := rest');
        auto using not_mapped.
      apply orb_true_iff in Hty. destruct Hty as [H1 | H1];
        apply String.eqb_eq in H1; auto.
    + intros [= <-]. apply orb_false_iff in Hty. destruct Hty as [H1 H2].
      apply String.eqb_neq in H1, H2.
      apply language_other with (type := type) (rest := rest);
        auto using not_mapped.
Qed.

Lemma language_throws m :
  (exists e, language m = Abrupt e) <->
  (~ mapped_mime_type m /\ subtype_missing m).
Proof.
  split.
  - intros (e & H). unfold language in H.
    destruct (js_get m mime_type_language_map) as [l'|] eqn:E; [discriminate|].
    split; [now apply not_mapped|].
    destruct (language_cases m E) as (type & rest & Hm & Ht & Hr & Hty & Hsub).
    rewrite Hty in H.
    destruct (String.eqb type "application" || String.eqb type "text") eqn:Hb;
      [|discriminate].
    destruct Hsub as [[_ Hrest] | (subtype & rest' & Hn & _)].
    + exists type, rest. repeat split; auto.
      apply orb_true_iff in Hb. destruct Hb as [H1 | H1];
        apply String.eqb_eq in H1; auto.
    + rewrite Hn in H. destruct (startsWith "x-" subtype); discriminate.
  - intros (Hm & type & rest & -> & Hty & Hrest).
    unfold language. rewrite (unmapped_get _ Hm).
    assert (Hp : plain type) by (destruct Hty as [-> | ->]; split; reflexivity).
    assert (Hb : boundary rest).
    { destruct Hrest as [-> | (r & ->)]; [left | right]; eauto. }
    destruct Hp as [Hp1 Hp2].
    rewrite (hd_split_app _ _ _ Hp1).
    assert (hd EmptyString (split ";" rest) = EmptyString) as ->.
    { destruct Hrest as [-> | (r & ->)]; reflexivity. }
    rewrite append_empty_r, (split_plain _ _ Hp2). simpl.
    exists (TypeError "subtype.startsWith").
    destruct Hty as [-> | ->]; reflexivity.
Qed.

(** ** The [language] getter *)

Example language_python : language "text/x-python" = Normal "python".
Proof. reflexivity. Qed.

Example language_parameters :
  language "application/x-julia; charset=utf-8" = Normal "julia".
Proof. reflexivity. Qed.

Example language_ipython : language "text/x-ipython" = Normal "python".
Proof. reflexivity. Qed.

Example language_image : language "image/png" = Normal "image/png".
Proof. reflexivity. Qed.

(** C9 (as amended).  The getter returns [l] exactly when the rule of the
    specification gives [l]: the mapped identifier for a key of the explicit
    map; else, with the parameters dropped, the subtype without a leading
    [x-] when the type is [application] or [text] and a subtype is present;
    else the mime type itself when the type is neither of the two. *)
Theorem language_rule m l : language m = Normal l <-> language_spec m l.
Proof.
  split; [apply language_complete | apply language_sound].
Qed.

Lemma language_rule_witness :
  language "text/x-python;charset=utf-8" = Normal "python".
Proof.
  apply (proj2 (language_rule "text/x-python;charset=utf-8" "python")).
  apply (language_subtype _ "text" "x-python" ";charset=utf-8").
  - intros (l & [[=] | [[=] | [[=] | []]]]).
  - reflexivity.
  - split; reflexivity.
  - split; reflexivity.
  - right. exists "charset=utf-8". left. reflexivity.
  - right. reflexivity.
Defined.

(** C9 as stated fails: on the mime type [text] (a type without a subtype)
    the getter does not return, it throws. *)
Lemma language_without_subtype_throws :
  language "text" = Abrupt (TypeError "subtype.startsWith") /\
  ~ (forall m, exists l, language m = Normal l).
Proof.
  split; [reflexivity|].
  intros H. destruct (H "text") as (l & Hl). discriminate Hl.
Qed.

(** ** The monad *)

Lemma for_of_tell {A} (f : A -> Event) (xs : list A) w :
  for_of xs (fun x => tell (f x)) w = (Normal tt, w, map f xs).
Proof.
  induction xs as [|x xs IH]; simpl; [reflexivity|].
  unfold bind, tell in *. now rewrite IH.
Qed.

Lemma for_of_events {A} (f : A -> Event) (xs : list A) w :
  for_of xs (fun x w' => (Normal tt, w', [f x])) w = (Normal tt, w, map f xs).
Proof. exact (for_of_tell f xs w). Qed.

Lemma for_of_stable {A} (body : A -> M unit) (f : A -> Event) xs w :
  (forall x, body x w = (Normal tt, w, [f x])) ->
  for_of xs body w = (Normal tt, w, map f xs).
Proof.
  intros H. induction xs as [|x xs IH]; simpl; [reflexivity|].
  unfold bind. now rewrite H, IH.
Qed.

Ltac unfold_monad :=
  unfold bind, ret, throw, this, modify, tell, catch, deref, await, alloc in *.

(** ** Ordered maps *)

Lemma js_get_set_same {V} k (v : V) m : js_get k (js_set k v m) = Some v.
Proof.
  induction m as [|[k' v'] m IH]; simpl.
  - now rewrite String.eqb_refl.
  - destruct (String.eqb k k') eqn:E; simpl.
    + now rewrite String.eqb_refl.
    + now rewrite E.
Qed.

Lemma js_get_set_other {V} k k' (v : V) m :
  k <> k' -> js_get k' (js_set k v m) = js_get k' m.
Proof.
  intros Hk. induction m as [|[k0 v0] m IH]; simpl.
  - apply not_eq_sym in Hk. apply String.eqb_neq in Hk. now rewrite Hk.
  - destruct (String.eqb k k0) eqn:E; simpl.
    + apply String.eqb_eq in E. subst k0.
      apply not_eq_sym in Hk. apply String.eqb_neq in Hk. now rewrite Hk.
    + now rewrite IH.
Qed.

Lemma js_get_delete_same {V} k (m : JsMap V) : js_get k (js_delete k m) = None.
Proof.
  induction m as [|[k' v'] m IH]; simpl; [reflexivity|].
  destruct (String.eqb k k') eqn:E; simpl; [exact IH|].
  now rewrite E.
Qed.

Lemma js_get_delete_other {V} k k' (m : JsMap V) :
  k <> k' -> js_get k' (js_delete k m) = js_get k' m.
Proof.
  intros Hk. induction m as [|[k0 v0] m IH]; simpl; [reflexivity|].
  destruct (String.eqb k k0) eqn:E; simpl.
  - apply String.eqb_eq in E. subst k0.
    apply not_eq_sym in Hk. apply String.eqb_neq in Hk. now rewrite Hk.
  - now rewrite IH.
Qed.

Lemma js_delete_In {V} k (m : JsMap V) kv : In kv (js_delete k m) -> In kv m.
Proof. unfold js_delete. rewrite filter_In. tauto. Qed.

Lemma js_delete_not_key {V} k (m : JsMap V) v : ~ In (k, v) (js_delete k m).
Proof.
  unfold js_delete. rewrite filter_In. simpl. rewrite String.eqb_refl.
  intros [_ [=]].
Qed.

Lemma js_In_get {V} k (v : V) m :
  NoDup (js_keys m) -> In (k, v) m -> js_get k m = Some v.
Proof.
  unfold js_keys. induction m as [|[k' v'] m IH]; simpl; [tauto|].
  intros Hn [[= -> ->] | Hin].
  - now rewrite String.eqb_refl.
  - inversion Hn as [|? ? Hk Hn']. subst.
    destruct (String.eqb k k') eqn:E.
    + apply String.eqb_eq in E. subst k'. elim Hk.
      apply in_map_iff. exists (k, v). auto.
    + auto.
Qed.

(** ** Disposal *)

(** On an adapter whose virtual editor was never set, [dispose] throws at
    line 175 after the signals are disconnected and the bundles disposed;
    the flag stays unset. *)
Lemma dispose_uninitialized w wd cm :
  isDisposed w = false -> virtual_editor w = None ->
  widget w = Some wd -> connection_manager w = Some cm ->
  dispose w =
    (Abrupt (TypeError "this.virtual_editor"), set_adapters [] w,
     teardown_signals ++ map AdapterDispose (js_values (adapters w))).
Proof.
  destruct w as [ads ic m dis ap wg ve uf nr]. simpl.
  intros -> -> -> ->. unfold dispose. unfold_monad. simpl.
  rewrite for_of_events. simpl. now rewrite app_nil_r.
Qed.

(** On an initialized adapter [dispose] completes: the bundle of the root
    document first, then the signals, then the remaining bundles. *)
Lemma dispose_initialized w e wd cm :
  isDisposed w = false -> virtual_editor w = Some e ->
  widget w = Some wd -> connection_manager w = Some cm ->
  dispose w =
    (Normal tt, release (set_adapters [] w),
     match js_get (id_path (virtual_document e)) (adapters w) with
     | Some a => [AdapterDispose a]
     | None => []
     end ++ teardown_signals ++
     map AdapterDispose
       (js_values (js_delete (id_path (virtual_document e)) (adapters w))) ++
     [DisconnectDocumentSignals (virtual_document e); VirtualEditorDispose e]).
Proof.
  destruct w as [ads ic m dis ap wg ve uf nr]. simpl.
  intros -> -> -> ->. unfold dispose, disconnect_adapter. unfold_monad. simpl.
  destruct (js_get (id_path (virtual_document e)) ads); simpl;
    rewrite for_of_events; simpl; rewrite ?app_nil_r; reflexivity.
Qed.

Lemma dispose_disposed w : isDisposed w = true -> dispose w = (Normal tt, w, []).
Proof.
  intros H. unfold dispose. unfold_monad. now rewrite H.
Qed.

(** C1 (the code departs from it).  On an adapter whose virtual editor is
    not set, the first [dispose] throws after the signal disconnections and
    leaves [isDisposed] unset; the second [dispose] runs the same teardown
    again and throws again. *)
Theorem dispose_twice_uninitialized w wd cm :
  isDisposed w = false -> virtual_editor w = None ->
  widget w = Some wd -> connection_manager w = Some cm ->
  exists w1,
    dispose w =
      (Abrupt (TypeError "this.virtual_editor"), w1,
       teardown_signals ++ map AdapterDispose (js_values (adapters w))) /\
    isDisposed w1 = false /\
    dispose w1 =
      (Abrupt (TypeError "this.virtual_editor"), w1, teardown_signals).
Proof.
  intros Hd He Hw Hm. exists (set_adapters [] w). split; [|split].
  - now apply dispose_uninitialized with (wd := wd) (cm := cm).
  - exact Hd.
  - rewrite (dispose_uninitialized (set_adapters [] w) wd cm); auto.
Qed.

Lemma dispose_twice_uninitialized_witness :
  exists w1,
    dispose fresh_adapter =
      (Abrupt (TypeError "this.virtual_editor"), w1,
       teardown_signals ++
       map AdapterDispose (js_values (adapters fresh_adapter))) /\
    isDisposed w1 = false /\
    dispose w1 =
      (Abrupt (TypeError "this.virtual_editor"), w1, teardown_signals).
Proof.
  apply (dispose_twice_uninitialized fresh_adapter
           {| widget_id := "widget-1" |} {| connections := [] |});
    reflexivity.
Defined.

(** The state of C1 is the one a failed [init_virtual] leaves behind. *)
Example dispose_after_failed_init_virtual :
  let w := snd (fst (init_virtual headless_host fresh_adapter)) in
  virtual_editor w = None /\ isDisposed w = false /\
  fst (fst (dispose w)) = Abrupt (TypeError "this.virtual_editor").
Proof. repeat split. Qed.

(** On an initialized adapter disposal is idempotent: the second call
    changes nothing and emits nothing. *)
Lemma dispose_twice_initialized w e wd cm :
  isDisposed w = false -> virtual_editor w = Some e ->
  widget w = Some wd -> connection_manager w = Some cm ->
  exists w1 t,
    dispose w = (Normal tt, w1, t) /\ isDisposed w1 = true /\
    dispose w1 = (Normal tt, w1, []).
Proof.
  intros Hd He Hw Hm. eexists _, _. split; [|split].
  - exact (dispose_initialized w e wd cm Hd He Hw Hm).
  - reflexivity.
  - now apply dispose_disposed.
Qed.

(** ** Connection closed *)

(** C10.  A closed event for a document that is not, by identity, the root
    document of the adapter leaves the adapter as it was: the handler logs
    and returns, no teardown takes place. *)
Theorem on_connection_closed_other_document w data :
  is_root_document w (data_virtual_document data) = false ->
  on_connection_closed data w = (Normal tt, w, [closed_log data]).
Proof.
  intros H. unfold on_connection_closed. unfold_monad. now rewrite H.
Qed.

(** The handler disposes exactly in the remaining case. *)
Lemma on_connection_closed_root w data :
  is_root_document w (data_virtual_document data) = true ->
  on_connection_closed data w =
    match dispose w with (r, w', t) => (r, w', closed_log data :: t) end.
Proof.
  intros H. unfold on_connection_closed. unfold_monad. rewrite H. simpl.
  now destruct (dispose w) as [[r w'] t].
Qed.

(** ** Save state *)

(** C7.  On an initialized adapter the save notification goes out exactly
    for the state [completed], once per connection of the manager, in the
    manager's order, each with the document-info of the root document. *)
Theorem on_save_state_completed w e cm state :
  virtual_editor w = Some e -> connection_manager w = Some cm ->
  on_save_state state w =
    (Normal tt, w,
     match state with
     | completed =>
         map (fun c => SendSaved c (document_info (virtual_document e)))
             (js_values (connections cm))
     | _ => []
     end).
Proof.
  intros He Hm. unfold on_save_state.
  unfold bind at 1. unfold this at 1. rewrite He.
  destruct state; try reflexivity.
  unfold bind at 1. unfold deref. rewrite Hm. unfold ret at 1.
  rewrite for_of_stable
    with (f := fun c => SendSaved c (document_info (virtual_document e))).
  - reflexivity.
  - intros c. unfold_monad. now rewrite He.
Qed.

(** ** Document changes *)

(** C2.  When the connection registered for the id_path of the changed
    document is absent or not ready, or no bundle exists for that id_path,
    [document_changed] sends no full-text change and starts no feature
    refresh; the adapter is left as it was (nothing is queued). *)
Theorem document_changed_dropped w d doc is_init :
  optional_isReady (registered_connection w d) = false \/
  js_get (id_path d) (adapters w) = None ->
  exists r t,
    document_changed d doc is_init w = (r, w, t) /\
    (forall c text info, ~ In (SendFullTextChange c text info) t) /\
    (forall root a, ~ In (UpdateAfterChangeLocked root a) t) /\
    (connection_manager w <> None -> r = Normal tt).
Proof.
  intros H. unfold document_changed, registered_connection in *. unfold_monad.
  destruct (isDisposed w).
  { eexists _, _. split; [reflexivity|].
    repeat split; try (intros; intros [[=] | []]). }
  destruct (connection_manager w) as [manager|]; simpl in *.
  2:{ eexists _, _. split; [reflexivity|].
      repeat split; try (intros; intros []). congruence. }
  destruct (js_get (id_path d) (connections manager)) as [c|]; simpl in *.
  2:{ eexists _, _. split; [reflexivity|].
      repeat split; try (intros; intros [[=] | []]). }
  destruct (isReady c); simpl in *.
  2:{ eexists _, _. split; [reflexivity|].
      repeat split; try (intros; intros [[=] | []]). }
  destruct H as [H | H]; [discriminate|]. rewrite H.
  eexists _, _. split; [reflexivity|].
  repeat split; try (intros; intros [[=] | []]).
Qed.

(** Past the guards the full text goes out first; the refresh under the
    update lock follows unless the change is the initial one. *)
Lemma document_changed_ready w manager c a d doc is_init :
  isDisposed w = false -> connection_manager w = Some manager ->
  js_get (id_path d) (connections manager) = Some c -> isReady c = true ->
  js_get (id_path d) (adapters w) = Some a ->
  document_changed d doc is_init w =
    if is_init then
      (Normal tt, w, [SendFullTextChange c (value d) (document_info d)])
    else
      match virtual_editor w with
      | Some e =>
          (Normal tt, w,
           [SendFullTextChange c (value d) (document_info d);
            UpdateAfterChangeLocked (virtual_document e) a])
      | None =>
          (Abrupt (TypeError "this.virtual_editor"), w,
           [SendFullTextChange c (value d) (document_info d)])
      end.
Proof.
  intros Hd Hm Hc Hr Ha. unfold document_changed. unfold_monad.
  rewrite Hd, Hm. simpl. rewrite Hc, Hr, Ha. simpl.
  destruct is_init; simpl; [reflexivity|].
  destruct (virtual_editor w); reflexivity.
Qed.

(** The initial change never reaches the feature integrations, whatever the
    state of the adapter. *)
Lemma document_changed_initial w d doc :
  exists r t,
    document_changed d doc true w = (r, w, t) /\
    forall root a, ~ In (UpdateAfterChangeLocked root a) t.
Proof.
  unfold document_changed. unfold_monad.
  destruct (isDisposed w).
  { eexists _, _. split; [reflexivity|]. intros ? ? [[=] | []]. }
  destruct (connection_manager w) as [manager|]; simpl.
  2:{ eexists _, _. split; [reflexivity|]. intros ? ? []. }
  destruct (js_get (id_path d) (connections manager)) as [c|]; simpl.
  2:{ eexists _, _. split; [reflexivity|]. intros ? ? [[=] | []]. }
  destruct (isReady c); simpl.
  2:{ eexists _, _. split; [reflexivity|]. intros ? ? [[=] | []]. }
  destruct (js_get (id_path d) (adapters w)); simpl;
    eexists _, _; (split; [reflexivity|]); intros ? ? [[=] | []].
Qed.

(** ** Updates on a disposed adapter *)

(** C5 (the code departs from it).  On a disposed adapter
    [update_documents] starts no recomputation, but what it returns is
    [undefined], not a promise: [onContentChanged], which chains [.catch] on
    the result, throws a TypeError. *)
Theorem update_documents_disposed host s w :
  isDisposed w = true ->
  update_documents host w =
    (Normal None, w, [ConsoleWarn ["Cannot update documents: adapter disposed"]]) /\
  onContentChanged host s w =
    (Abrupt (TypeError "this.update_documents(...).catch"), w,
     [ConsoleWarn ["Cannot update documents: adapter disposed"]]).
Proof.
  intros H. unfold onContentChanged, update_documents. unfold_monad.
  rewrite H. split; reflexivity.
Qed.

(** The same failure inside the connect chain: the adapter is disposed
    while the connection is acquired; [on_connected] resumes, and
    [update_documents().then] throws. *)
Example on_connected_after_dispose :
  fst (fst (connect bare_host disposing foreign_r_document notebook_adapter)) =
    Abrupt (TypeError "this.update_documents(...).then").
Proof. reflexivity. Qed.

(** ** Invariants along a run *)

Section Preserves.

Variable I : WidgetAdapter -> Prop.
Variable Ev : Event -> Prop.

Lemma preserves_ret {A} (a : A) : preserves I Ev (ret a).
Proof. intros w H. simpl. auto. Qed.

Lemma preserves_throw {A} e : preserves I Ev (@throw A e).
Proof. intros w H. simpl. auto. Qed.

Lemma preserves_this : preserves I Ev this.
Proof. intros w H. simpl. auto. Qed.

Lemma preserves_deref {A} what (o : option A) : preserves I Ev (deref what o).
Proof. intros w H. destruct o; simpl; auto. Qed.

Lemma preserves_tell e : Ev e -> preserves I Ev (tell e).
Proof. intros He w H. simpl. auto. Qed.

Lemma preserves_modify f :
  (forall w, I w -> I (f w)) -> preserves I Ev (modify f).
Proof. intros Hf w H. simpl. auto. Qed.

Lemma preserves_await {A} (c : Completion A) f :
  (forall w, I w -> I (f w)) -> preserves I Ev (await c f).
Proof. intros Hf w H. simpl. auto. Qed.

Lemma preserves_alloc :
  (forall w, I w -> I (set_next_ref (S (next_ref w)) w)) ->
  preserves I Ev alloc.
Proof. intros Hf w H. simpl. auto. Qed.

Lemma preserves_bind {A B} (m : M A) (k : A -> M B) :
  preserves I Ev m -> (forall a, preserves I Ev (k a)) ->
  preserves I Ev (bind m k).
Proof.
  intros Hm Hk w H. unfold bind. specialize (Hm w H).
  destruct (m w) as [[[a|e] w1] t1]; [|exact Hm].
  destruct Hm as [Ht1 Hw1]. specialize (Hk a w1 Hw1).
  destruct (k a w1) as [[r w2] t2]. destruct Hk as [Ht2 Hw2].
  split; [apply Forall_app; auto | exact Hw2].
Qed.

Lemma preserves_catch {A} (m : M A) (h : Error -> M A) :
  preserves I Ev m -> (forall e, preserves I Ev (h e)) ->
  preserves I Ev (catch m h).
Proof.
  intros Hm Hh w H. unfold catch. specialize (Hm w H).
  destruct (m w) as [[[a|e] w1] t1]; [exact Hm|].
  destruct Hm as [Ht1 Hw1]. specialize (Hh e w1 Hw1).
  destruct (h e w1) as [[r w2] t2]. destruct Hh as [Ht2 Hw2].
  split; [apply Forall_app; auto | exact Hw2].
Qed.

Lemma preserves_map_m {A B} (f : A -> M B) xs :
  (forall x, preserves I Ev (f x)) -> preserves I Ev (map_m f xs).
Proof.
  intros Hf. induction xs as [|x xs IH]; simpl.
  - apply preserves_ret.
  - apply preserves_bind; [apply Hf|]. intros y.
    apply preserves_bind; [apply IH|]. intros ys. apply preserves_ret.
Qed.

Lemma preserves_for_of {A} (body : A -> M unit) xs :
  (forall x, preserves I Ev (body x)) -> preserves I Ev (for_of xs body).
Proof.
  intros Hf. induction xs as [|x xs IH]; simpl.
  - apply preserves_ret.
  - apply preserves_bind; [apply Hf | intros _; apply IH].
Qed.

End Preserves.

(** Decompose a computation along its binds and branches. *)
Ltac step :=
  match goal with
  | |- preserves _ _ (bind _ _) => apply preserves_bind; [|intros ?; cbv beta]
  | |- preserves _ _ (catch _ _) => apply preserves_catch; [|intros ?; cbv beta]
  | |- preserves _ _ (map_m _ _) => apply preserves_map_m; intros ?; cbv beta
  | |- preserves _ _ (for_of _ _) => apply preserves_for_of; intros ?; cbv beta
  | |- preserves _ _ (ret _) => apply preserves_ret
  | |- preserves _ _ (throw _) => apply preserves_throw
  | |- preserves _ _ this => apply preserves_this
  | |- preserves _ _ (deref _ _) => apply preserves_deref
  | |- preserves _ _ (if ?b then _ else _) => destruct b
  | |- preserves _ _ (match ?x with _ => _ end) => destruct x
  | |- preserves _ _ (let _ := _ in _) => cbv zeta
  end.

Ltac run_cases := repeat step.

(** ** Connecting *)

Lemma document_changed_initial_quiet I d doc :
  preserves I not_refresh (document_changed d doc true).
Proof.
  intros w H. destruct (document_changed_initial w d doc) as (r & t & E & Ht).
  rewrite E. split; [|exact H].
  apply Forall_forall. intros ev Hev. destruct ev; simpl; auto.
  exact (Ht _ _ Hev).
Qed.

Lemma on_connected_quiet host s data :
  preserves (fun _ => True) not_refresh (on_connected host s data).
Proof.
  unfold on_connected, connect_adapter, create_adapter, integration,
    update_documents.
  run_cases;
    try (apply preserves_tell; exact I);
    try (apply preserves_modify; auto);
    try (apply preserves_await; auto);
    try (apply preserves_alloc; auto).
  apply document_changed_initial_quiet.
Qed.

Lemma integrations_constructed d connection fs w e :
  virtual_editor w = Some e ->
  Forall (fun feature =>
            js_get (editor_name e) (editorIntegrationFactory feature) <> None) fs ->
  exists l, map_m (integration d connection) fs w = (Normal l, w, []).
Proof.
  intros He. induction 1 as [|f fs Hf _ IH]; simpl.
  - exists []. reflexivity.
  - destruct IH as (l & IH).
    destruct (js_get (editor_name e) (editorIntegrationFactory f)) as [c|] eqn:E;
      [|now elim Hf].
    assert (Hi : integration d connection f w =
                 (Normal {| fi_constructor := c; fi_feature := f;
                            fi_virtual_document := d;
                            fi_connection := connection |}, w, [])).
    { unfold integration. unfold_monad. rewrite He. simpl. now rewrite E. }
    eexists. unfold bind. rewrite Hi, IH. reflexivity.
Qed.

Lemma create_adapter_constructed host d c w e :
  virtual_editor w = Some e -> constructible host e ->
  exists a,
    ea_ref a = next_ref w /\ ea_virtual_document a = d /\
    create_adapter host d (Some c) None w =
      (Normal a, set_next_ref (S (next_ref w)) w,
       [adapter_ready_log host; SendOpenWhenReady c (document_info d)]).
Proof.
  intros He Hc.
  destruct (integrations_constructed d (Some c) (features host) w e He Hc)
    as (l & El).
  eexists. split; [|split]; cycle 2.
  - unfold create_adapter. unfold bind at 1. rewrite El.
    unfold_monad. simpl. reflexivity.
  - reflexivity.
  - reflexivity.
Qed.

Lemma connect_adapter_constructed host d c w e :
  virtual_editor w = Some e -> constructible host e ->
  exists a,
    ea_ref a = next_ref w /\ ea_virtual_document a = d /\
    connect_adapter host d (Some c) None w =
      (Normal a,
       set_adapters (js_set (id_path d) a (adapters w))
         (set_next_ref (S (next_ref w)) w),
       [adapter_ready_log host; SendOpenWhenReady c (document_info d)]).
Proof.
  intros He Hc.
  destruct (create_adapter_constructed host d c w e He Hc) as (a & Hr & Hd & E).
  exists a. split; [exact Hr|]. split; [exact Hd|].
  unfold connect_adapter. unfold bind at 1. rewrite E. reflexivity.
Qed.

(** [on_connected] on a live, initialized adapter whose update resolves:
    the bundle is installed, the update requested, and after the suspension
    the initial change is delivered. *)
Lemma on_connected_run host s d c w e :
  isDisposed w = false -> virtual_editor w = Some e ->
  constructible host e -> update_settles s = Normal tt ->
  exists a,
    ea_ref a = next_ref w /\ ea_virtual_document a = d /\
    on_connected host s {| data_virtual_document := d; data_connection := Some c |} w =
      match document_changed d d true
              (while_updating s
                 (set_isConnected true
                    (set_adapters (js_set (id_path d) a (adapters w))
                       (set_next_ref (S (next_ref w)) w))))
      with
      | (Normal _, w3, t) =>
          (Normal tt, w3, connected_events host d c e ++ t ++ [initialized_log host])
      | (Abrupt err, w3, t) =>
          (Abrupt err, w3, connected_events host d c e ++ t)
      end.
Proof.
  intros Hd He Hc Hu.
  destruct (connect_adapter_constructed host d c w e He Hc) as (a & Hr & Hv & E).
  exists a. split; [exact Hr|]. split; [exact Hv|].
  unfold on_connected. unfold bind at 1. simpl data_virtual_document.
  simpl data_connection. rewrite E.
  unfold update_documents. unfold_monad. simpl. rewrite Hd, He, Hu. simpl.
  destruct (document_changed d d true _) as [[[[]|err] w3] t]; reflexivity.
Qed.

(** C3.  On an initialized adapter a change that passes the readiness
    guards sends the full text, followed by the feature refresh under the
    update lock exactly when the change is not the initial one.  The initial
    synchronization of [on_connected] never starts a feature refresh, and
    sends the full text once the guards hold at that point. *)
Theorem initial_change_not_propagated host :
  (forall w manager c a e d doc is_init,
      isDisposed w = false -> connection_manager w = Some manager ->
      js_get (id_path d) (connections manager) = Some c -> isReady c = true ->
      js_get (id_path d) (adapters w) = Some a ->
      virtual_editor w = Some e ->
      document_changed d doc is_init w =
        (Normal tt, w,
         SendFullTextChange c (value d) (document_info d) ::
         if is_init then []
         else [UpdateAfterChangeLocked (virtual_document e) a])) /\
  (forall s data w root a,
      ~ In (UpdateAfterChangeLocked root a) (snd (on_connected host s data w))) /\
  (forall s d c c' w e,
      isDisposed w = false -> virtual_editor w = Some e ->
      constructible host e -> update_settles s = Normal tt ->
      (forall w', isDisposed (while_updating s w') = isDisposed w' /\
                  adapters (while_updating s w') = adapters w' /\
                  connection_manager (while_updating s w') =
                    connection_manager w') ->
      registered_connection w d = Some c' -> isReady c' = true ->
      let run := on_connected host s
                   {| data_virtual_document := d; data_connection := Some c |} w in
      fst (fst run) = Normal tt /\
      In (SendFullTextChange c' (value d) (document_info d)) (snd run)).
Proof.
  split; [|split].
  - intros w manager c a e d doc is_init Hd Hm Hc Hr Ha He.
    rewrite (document_changed_ready w manager c a d doc is_init Hd Hm Hc Hr Ha).
    rewrite He. now destruct is_init.
  - intros s data w root a Hin.
    pose proof (on_connected_quiet host s data w I) as H.
    destruct (on_connected host s data w) as [[r w'] t]. simpl in Hin.
    destruct H as [H _]. rewrite Forall_forall in H. exact (H _ Hin).
  - intros s d c c' w e Hd He Hc Hu Hq Hreg Hready run. subst run.
    destruct (on_connected_run host s d c w e Hd He Hc Hu) as (a & _ & _ & E).
    rewrite E. clear E.
    set (w1 := set_isConnected true _).
    unfold registered_connection in Hreg.
    destruct (connection_manager w) as [manager|] eqn:Hm; [|discriminate].
    destruct (Hq w1) as (Hd2 & Ha2 & Hm2).
    rewrite (document_changed_ready (while_updating s w1) manager c' a d d true).
    + simpl. split; [reflexivity|]. tauto.
    + rewrite Hd2. exact Hd.
    + rewrite Hm2. subst w1. simpl. exact Hm.
    + exact Hreg.
    + exact Hready.
    + rewrite Ha2. subst w1. simpl. apply js_get_set_same.
Qed.

(** [connect_document] never rejects: every failure of the chain below it
    ends in the local catch. *)
Lemma connect_document_settles host s d send_open w :
  exists w' t, connect_document host s d send_open w = (Normal tt, w', t).
Proof.
  unfold connect_document, connect_document_signals, connect_document_open.
  unfold_monad. simpl.
  destruct (connect host s d w) as [[[[d' [c|]]|err] w'] t];
    destruct send_open; simpl; eexists _, _; reflexivity.
Qed.

(** C4.  When the acquisition of the connection is rejected,
    [connect_document] logs the rejection and resolves; it installs no
    bundle, sets no flag and sends no open request (with [send_open] it only
    warns that the connection was not opened). *)
Theorem connect_document_acquisition_rejected host s d send_open w err :
  connect_settles s = Abrupt err ->
  connect_document host s d send_open w =
    match connection_manager w with
    | Some _ =>
        (Normal tt, while_connecting s w,
         connecting_events host d ++
         [connect_request host d; ConsoleWarnError err] ++
         if send_open then [not_opened_warning d] else [])
    | None =>
        (Normal tt, w,
         connecting_events host d ++
         [ConsoleWarnError (TypeError "this.connection_manager")] ++
         if send_open then [not_opened_warning d] else [])
    end.
Proof.
  intros H.
  unfold connect_document, connect_document_signals, connect_document_open,
    connect.
  unfold_monad. simpl.
  destruct (connection_manager w); simpl.
  - rewrite H. now destruct send_open.
  - now destruct send_open.
Qed.

(** ** Reloading the connection *)

(** [connect], one layer: the request, then [on_connected] after the
    suspension. *)
Lemma connect_run host s d w manager :
  connection_manager w = Some manager ->
  connect host s d w =
    match connect_settles s with
    | Abrupt err =>
        (Abrupt err, while_connecting s w,
         [connecting_log d; connect_request host d])
    | Normal connection =>
        match on_connected host s
                {| data_virtual_document := d; data_connection := connection |}
                (while_connecting s w)
        with
        | (Normal _, w', t) =>
            (Normal {| data_virtual_document := d; data_connection := connection |},
             w', [connecting_log d; connect_request host d] ++ t)
        | (Abrupt err, w', t) =>
            (Abrupt err, w', [connecting_log d; connect_request host d] ++ t)
        end
    end.
Proof.
  intros Hm. unfold connect. unfold_monad. rewrite Hm. simpl.
  destruct (connect_settles s) as [connection|err]; [|reflexivity].
  destruct (on_connected host s _ _) as [[[[]|err] w'] t];
    simpl; rewrite ?app_nil_r; reflexivity.
Qed.

(** [connect_document] with [send_open], one layer. *)
Lemma connect_document_run host s d w :
  connect_document host s d true w =
    match connect host s d w with
    | (Normal {| data_connection := Some c |}, w', t) =>
        (Normal tt, w',
         [ SignalConnect (sig_changed d) slot_document_changed;
           SignalConnect (sig_foreign_document_opened d)
             slot_on_foreign_document_opened ] ++
         t ++ [SendOpenWhenReady c (document_info d)])
    | (Normal {| data_connection := None |}, w', t) =>
        (Normal tt, w',
         [ SignalConnect (sig_changed d) slot_document_changed;
           SignalConnect (sig_foreign_document_opened d)
             slot_on_foreign_document_opened ] ++
         t ++ [not_opened_warning d])
    | (Abrupt err, w', t) =>
        (Normal tt, w',
         [ SignalConnect (sig_changed d) slot_document_changed;
           SignalConnect (sig_foreign_document_opened d)
             slot_on_foreign_document_opened ] ++
         t ++ [ConsoleWarnError err; not_opened_warning d])
    end.
Proof.
  unfold connect_document, connect_document_signals, connect_document_open.
  unfold_monad. simpl.
  destruct (connect host s d w) as [[[[d' [c|]]|err] w'] t];
    simpl; rewrite ?app_nil_r, <- ?app_assoc; reflexivity.
Qed.

(** [reload_connection], one layer. *)
Lemma reload_connection_run host s w e manager :
  virtual_editor w = Some e -> connection_manager w = Some manager ->
  reload_connection host s w =
    match connect_document host s (replacement host w) true (reloaded host e w) with
    | (Normal _, w', t) =>
        (Normal tt, w', UnregisterDocument (virtual_document e) :: t)
    | (Abrupt err, w', t) =>
        (Normal tt, w',
         UnregisterDocument (virtual_document e) :: t ++ [ConsoleWarnError err])
    end.
Proof.
  intros He Hm. unfold reload_connection, create_virtual_document.
  unfold_monad. rewrite He, Hm. simpl.
  change (with_ref (next_ref w) (new_virtual_document host))
    with (replacement host w).
  change (set_virtual_editor _ (set_next_ref (S (next_ref w)) w))
    with (reloaded host e w).
  destruct (connect_document host s _ true _) as [[[[]|err] w'] t];
    simpl; rewrite ?app_nil_r; reflexivity.
Qed.

Ltac run_frame :=
  run_cases;
  try (apply preserves_tell; exact I);
  try (apply preserves_modify; intros ? ?; simpl; auto);
  try (apply preserves_await; intros ? ?; simpl; auto);
  try (apply preserves_alloc; intros ? ?; simpl; auto).

(** [document_changed] reads the adapter and never writes it. *)
Lemma document_changed_frame J d doc is_init :
  preserves J (fun _ => True) (document_changed d doc is_init).
Proof. unfold document_changed. run_frame. Qed.

(** The virtual editor is written by [init_virtual] and
    [reload_connection] only: the connect chain keeps it, as long as the
    handlers that run during its suspensions do. *)
Lemma connect_document_keeps_editor host s d send_open x :
  (forall w, virtual_editor (while_connecting s w) = virtual_editor w) ->
  (forall w, virtual_editor (while_updating s w) = virtual_editor w) ->
  preserves (fun w => virtual_editor w = x) (fun _ => True)
    (connect_document host s d send_open).
Proof.
  intros H1 H2.
  unfold connect_document, connect_document_signals, connect_document_open,
    connect, on_connected, connect_adapter, create_adapter, integration,
    update_documents.
  run_frame; try (rewrite ?H1, ?H2; assumption).
  apply document_changed_frame.
Qed.

(** A premature reload is ignored. *)
Lemma reload_connection_premature host s w :
  virtual_editor w = None -> reload_connection host s w = (Normal tt, w, []).
Proof.
  intros H. unfold reload_connection. unfold_monad. now rewrite H.
Qed.

(** The reload begins by unregistering the old document and requesting a
    connection for the replacement. *)
Lemma reload_connection_requests host s w e manager :
  virtual_editor w = Some e -> connection_manager w = Some manager ->
  exists w' t,
    reload_connection host s w =
      (Normal tt, w',
       UnregisterDocument (virtual_document e) ::
       connecting_events host (replacement host w) ++
       connect_request host (replacement host w) :: t).
Proof.
  intros He Hm.
  rewrite (reload_connection_run host s w e manager He Hm),
    connect_document_run,
    (connect_run host s (replacement host w) (reloaded host e w) manager Hm).
  destruct (connect_settles s) as [connection|err].
  - destruct (on_connected host s _ _) as [[[[]|err] w'] t];
      [destruct connection|]; simpl; eexists _, _; reflexivity.
  - simpl. eexists _, _; reflexivity.
Qed.

Lemma reload_connection_installs host s w e manager :
  virtual_editor w = Some e -> connection_manager w = Some manager ->
  (forall w', virtual_editor (while_connecting s w') = virtual_editor w') ->
  (forall w', virtual_editor (while_updating s w') = virtual_editor w') ->
  virtual_editor (snd (fst (reload_connection host s w))) =
    Some {| editor_name := editor_name e;
            virtual_document := replacement host w |}.
Proof.
  intros He Hm H1 H2.
  rewrite (reload_connection_run host s w e manager He Hm).
  pose proof (connect_document_keeps_editor host s (replacement host w) true
                _ H1 H2 (reloaded host e w) eq_refl) as H.
  destruct (connect_document host s _ true _) as [[[[]|err] w'] t];
    simpl; exact (proj2 H).
Qed.

Lemma document_changed_initial_normal w d doc :
  isDisposed w = false -> connection_manager w <> None ->
  exists t,
    document_changed d doc true w = (Normal tt, w, t) /\
    Forall (initial_event w d) t.
Proof.
  intros Hd Hm. unfold document_changed, initial_event, registered_connection.
  unfold_monad. rewrite Hd.
  destruct (connection_manager w) as [manager|]; [|now elim Hm]. simpl.
  destruct (js_get (id_path d) (connections manager)) as [c|]; simpl.
  2:{ eexists. split; [reflexivity|]. repeat constructor. }
  destruct (isReady c); simpl.
  2:{ eexists. split; [reflexivity|]. repeat constructor. }
  destruct (js_get (id_path d) (adapters w)); simpl;
    eexists; (split; [reflexivity|]); repeat constructor.
Qed.

(** The reload on a live adapter whose connection is acquired: the open
    request for the replacement goes to the acquired connection. *)
Lemma reload_connection_reopens host s w e manager c :
  isDisposed w = false -> virtual_editor w = Some e ->
  connection_manager w = Some manager -> constructible host e ->
  connect_settles s = Normal (Some c) -> update_settles s = Normal tt ->
  keeps_adapter (while_connecting s) -> keeps_adapter (while_updating s) ->
  exists w' mid,
    reload_connection host s w =
      (Normal tt, w',
       UnregisterDocument (virtual_document e) ::
       connecting_events host (replacement host w) ++
       connect_request host (replacement host w) ::
       connected_events host (replacement host w) c
         {| editor_name := editor_name e;
            virtual_document := replacement host w |} ++
       mid ++
       [initialized_log host;
        SendOpenWhenReady c (document_info (replacement host w))]) /\
    Forall (initial_event w' (replacement host w)) mid.
Proof.
  intros Hd He Hm Hc Hcs Hus K1 K2.
  set (d := replacement host w).
  set (e' := {| editor_name := editor_name e; virtual_document := d |}).
  rewrite (reload_connection_run host s w e manager He Hm),
    connect_document_run,
    (connect_run host s (replacement host w) (reloaded host e w) manager Hm).
  rewrite Hcs. fold d.
  set (wa := while_connecting s (reloaded host e w)).
  destruct (K1 (reloaded host e w)) as (Ke & Kd & Km). fold wa in Ke, Kd, Km.
  assert (Hda : isDisposed wa = false) by (rewrite Kd; exact Hd).
  assert (Hea : virtual_editor wa = Some e') by (rewrite Ke; reflexivity).
  assert (Hma : connection_manager wa <> None).
  { apply Km. simpl. rewrite Hm. discriminate. }
  destruct (on_connected_run host s d c wa e' Hda Hea Hc Hus) as (a & _ & _ & E).
  rewrite E. clear E.
  set (wb := while_updating s _).
  destruct (K2 (set_isConnected true
                  (set_adapters (js_set (id_path d) a (adapters wa))
                     (set_next_ref (S (next_ref wa)) wa))))
    as (Ke2 & Kd2 & Km2).
  fold wb in Ke2, Kd2, Km2. simpl in Ke2, Kd2, Km2.
  assert (Hdb : isDisposed wb = false) by (rewrite Kd2; exact Hda).
  destruct (document_changed_initial_normal wb d d Hdb (Km2 Hma))
    as (mid & Emid & Hmid).
  rewrite Emid. exists wb, mid. split; [|exact Hmid].
  simpl. rewrite <- !app_assoc. reflexivity.
Qed.

(** ** One bundle per id_path *)

Lemma js_set_In {V} k (v : V) m kv :
  In kv (js_set k v m) -> kv = (k, v) \/ In kv m.
Proof.
  induction m as [|[k' v'] m IH]; simpl.
  - intros [<- | []]. auto.
  - destruct (String.eqb k k'); simpl.
    + intros [<- | H]; auto.
    + intros [<- | H]; auto. destruct (IH H); auto.
Qed.

Lemma js_get_In_values {V} k (m : JsMap V) v :
  js_get k m = Some v -> In v (js_values m).
Proof.
  intros H. apply js_get_In in H. unfold js_values.
  apply in_map_iff. exists (k, v). auto.
Qed.

Lemma bundles_ok_le m n n' : bundles_ok m n -> n <= n' -> bundles_ok m n'.
Proof.
  intros (Hk & Hr & Hb) Hle. repeat split; auto.
  eapply Forall_impl; [|exact Hb]. simpl. intros a Ha. lia.
Qed.

Lemma bundles_ok_set m n k a :
  bundles_ok m n -> ea_ref a = n -> bundles_ok (js_set k a m) (S n).
Proof.
  unfold bundles_ok, js_keys, js_values.
  induction m as [|[k' v'] m IH]; simpl; intros (Hk & Hr & Hb) Ha.
  - split; [|split].
    + constructor; [simpl; tauto | constructor].
    + constructor; [simpl; tauto | constructor].
    + constructor; [lia | constructor].
  - inversion Hk as [|? ? Hk1 Hk2]. inversion Hr as [|? ? Hr1 Hr2].
    inversion Hb as [|? ? Hb1 Hb2]. subst.
    destruct (String.eqb k k') eqn:E; simpl.
    + apply String.eqb_eq in E. subst k'.
      repeat split; try constructor; auto.
      * intros Hin. apply in_map_iff in Hin. destruct Hin as (b & Hx & Hin).
        rewrite Forall_forall in Hb2. specialize (Hb2 b Hin). lia.
      * eapply Forall_impl; [|exact Hb2]. simpl. intros. lia.
    + destruct (IH (conj Hk2 (conj Hr2 Hb2)) eq_refl) as (Ik & Ir & Ib).
      repeat split; try constructor; auto.
      * intros Hin. apply in_map_iff in Hin. destruct Hin as ([k0 v0] & Hk0 & Hin).
        simpl in Hk0. subst k0. apply js_set_In in Hin.
        destruct Hin as [[= -> ->] | Hin].
        -- rewrite String.eqb_refl in E. discriminate.
        -- apply Hk1. apply in_map_iff. exists (k', v0). auto.
      * intros Hin. apply in_map_iff in Hin. destruct Hin as (b & Hx & Hin).
        apply in_map_iff in Hin. destruct Hin as ([k0 v0] & Hv0 & Hin).
        simpl in Hv0. subst v0. apply js_set_In in Hin.
        destruct Hin as [[= -> ->] | Hin].
        -- lia.
        -- apply Hr1. apply in_map_iff. exists b. split; [auto|].
           apply in_map_iff. exists (k0, b). auto.
Qed.

Lemma NoDup_map_filter {A B} (f : A -> B) p (l : list A) :
  NoDup (map f l) -> NoDup (map f (filter p l)).
Proof.
  induction l as [|x l IH]; simpl; intros H; [constructor|].
  inversion H as [|? ? H1 H2]. subst.
  destruct (p x); simpl; auto.
  constructor; auto.
  intros Hin. apply H1. apply in_map_iff in Hin.
  destruct Hin as (y & Hy & Hin). apply filter_In in Hin.
  apply in_map_iff. exists y. tauto.
Qed.

Lemma bundles_ok_delete m n k : bundles_ok m n -> bundles_ok (js_delete k m) n.
Proof.
  unfold bundles_ok, js_keys, js_values, js_delete. intros (Hk & Hr & Hb).
  repeat split.
  - now apply NoDup_map_filter.
  - rewrite map_map in *. now apply NoDup_map_filter.
  - rewrite Forall_forall in *. intros a Ha. apply Hb.
    apply in_map_iff in Ha. destruct Ha as (kv & <- & Hin).
    apply filter_In in Hin. apply in_map_iff. exists kv. tauto.
Qed.

(** Two keys never hold the same bundle. *)
Lemma bundles_not_shared m n k1 k2 a1 a2 :
  bundles_ok m n ->
  In (k1, a1) m -> In (k2, a2) m -> ea_ref a1 = ea_ref a2 -> k1 = k2.
Proof.
  unfold bundles_ok, js_keys, js_values. intros (_ & Hr & _).
  induction m as [|[k v] m IH]; simpl; [tauto|].
  simpl in Hr. inversion Hr as [|? ? H1 H2]. subst.
  intros [[= -> ->] | Hin1] [[= -> ->] | Hin2] Heq; auto.
  - elim H1. rewrite Heq. apply in_map_iff. exists a2. split; [auto|].
    apply in_map_iff. exists (k2, a2). auto.
  - elim H1. rewrite <- Heq. apply in_map_iff. exists a1. split; [auto|].
    apply in_map_iff. exists (k1, a1). auto.
Qed.

Lemma integrations_frame d connection fs w :
  exists r, map_m (integration d connection) fs w = (r, w, []).
Proof.
  induction fs as [|f fs (r & IH)]; simpl.
  - eexists. reflexivity.
  - unfold bind at 1. unfold integration at 1. unfold_monad.
    destruct (virtual_editor w) as [e|]; simpl; [|eexists; reflexivity].
    destruct (js_get (editor_name e) (editorIntegrationFactory f));
      simpl; [|eexists; reflexivity].
    rewrite IH. destruct r; simpl; eexists; reflexivity.
Qed.

(** [create_adapter] leaves the map alone; the bundle it returns is a new
    object. *)
Lemma create_adapter_fresh host d connection fs w :
  match create_adapter host d connection fs w with
  | (r, w', t) =>
      exists n, w' = set_next_ref n w /\ next_ref w <= n /\
      forall a, r = Normal a -> ea_ref a = next_ref w /\ n = S (next_ref w)
  end.
Proof.
  unfold create_adapter.
  destruct (integrations_frame d connection
              (match fs with None => features host | Some fs0 => fs0 end) w)
    as (r & E).
  unfold bind at 1. rewrite E. destruct r as [l|err].
  - unfold_monad. simpl. destruct connection as [c|]; simpl.
    + exists (S (next_ref w)). split; [reflexivity|]. split; [lia|].
      intros a [= <-]. auto.
    + exists (S (next_ref w)). split; [reflexivity|]. split; [lia|].
      discriminate.
  - exists (next_ref w). split; [now destruct w|]. split; [lia|].
    discriminate.
Qed.

Lemma constructor_one_bundle ap manager wd heap :
  one_bundle_per_document (fst (constructor ap manager wd heap)).
Proof. repeat split; constructor. Qed.

Lemma connect_adapter_one_bundle host d connection fs w :
  one_bundle_per_document w ->
  match connect_adapter host d connection fs w with
  | (r, w', t) =>
      one_bundle_per_document w' /\
      forall a, r = Normal a ->
        js_get (id_path d) (adapters w') = Some a /\
        (forall k, id_path d <> k ->
                   js_get k (adapters w') = js_get k (adapters w)) /\
        (forall k b, js_get k (adapters w) = Some b -> ea_ref b <> ea_ref a)
  end.
Proof.
  intros Hw. unfold connect_adapter. unfold bind at 1.
  pose proof (create_adapter_fresh host d connection fs w) as H.
  destruct (create_adapter host d connection fs w) as [[[a|err] w1] t1].
  - destruct H as (n & -> & _ & H). destruct (H a eq_refl) as [Ha ->].
    unfold_monad. simpl. split.
    + unfold one_bundle_per_document. simpl. now apply bundles_ok_set.
    + intros a' [= <-]. split; [apply js_get_set_same|]. split.
      * intros k Hk. now apply js_get_set_other.
      * intros k b Hb. destruct Hw as (_ & _ & Hlt).
        rewrite Forall_forall in Hlt.
        specialize (Hlt b (js_get_In_values _ _ _ Hb)). lia.
  - destruct H as (n & -> & Hle & _). split; [|discriminate].
    unfold one_bundle_per_document. simpl. eapply bundles_ok_le; eauto.
Qed.

Lemma disconnect_adapter_run d w :
  disconnect_adapter d w =
    (Normal tt, set_adapters (js_delete (id_path d) (adapters w)) w,
     match js_get (id_path d) (adapters w) with
     | Some a => [AdapterDispose a]
     | None => []
     end).
Proof.
  unfold disconnect_adapter. unfold_monad. simpl.
  now destruct (js_get (id_path d) (adapters w)).
Qed.

Lemma disconnect_adapter_one_bundle d w :
  one_bundle_per_document w ->
  let w' := set_adapters (js_delete (id_path d) (adapters w)) w in
  one_bundle_per_document w' /\
  js_get (id_path d) (adapters w') = None /\
  forall a, js_get (id_path d) (adapters w) = Some a ->
    forall k b, js_get k (adapters w') = Some b -> ea_ref b <> ea_ref a.
Proof.
  intros Hw w'. subst w'. simpl. split; [|split].
  - unfold one_bundle_per_document. simpl. now apply bundles_ok_delete.
  - apply js_get_delete_same.
  - intros a Ha k b Hb Heq.
    apply js_get_In in Ha, Hb.
    pose proof (js_delete_In _ _ _ Hb) as Hb'.
    assert (k = id_path d)
      by exact (bundles_not_shared _ _ _ _ _ _ Hw Hb' Ha Heq).
    subst k. exact (js_delete_not_key _ _ _ Hb).
Qed.

(** The adapters map: the adapter starts without bundles; two id_paths
    never hold the same bundle; [connect_adapter] keeps this and, when it
    returns, has stored under the id_path of the document one bundle that
    no key held before, leaving the other keys alone; [disconnect_adapter]
    keeps it, disposes the bundle of the id_path once if there is one, and
    afterwards neither the id_path nor any other key holds that bundle. *)
Theorem one_bundle_per_id_path host :
  (forall ap manager wd heap,
      one_bundle_per_document (fst (constructor ap manager wd heap))) /\
  (forall w k1 k2 a1 a2,
      one_bundle_per_document w ->
      js_get k1 (adapters w) = Some a1 -> js_get k2 (adapters w) = Some a2 ->
      ea_ref a1 = ea_ref a2 -> k1 = k2) /\
  (forall w d connection fs,
      one_bundle_per_document w ->
      match connect_adapter host d connection fs w with
      | (r, w', t) =>
          one_bundle_per_document w' /\
          forall a, r = Normal a ->
            js_get (id_path d) (adapters w') = Some a /\
            (forall k, id_path d <> k ->
                       js_get k (adapters w') = js_get k (adapters w)) /\
            (forall k b, js_get k (adapters w) = Some b -> ea_ref b <> ea_ref a)
      end) /\
  (forall w d,
      one_bundle_per_document w ->
      exists w',
        disconnect_adapter d w =
          (Normal tt, w',
           match js_get (id_path d) (adapters w) with
           | Some a => [AdapterDispose a]
           | None => []
           end) /\
        one_bundle_per_document w' /\
        js_get (id_path d) (adapters w') = None /\
        forall a, js_get (id_path d) (adapters w) = Some a ->
          forall k b, js_get k (adapters w') = Some b -> ea_ref b <> ea_ref a).
Proof.
  split; [|split; [|split]].
  - apply constructor_one_bundle.
  - intros w k1 k2 a1 a2 Hw H1 H2 Heq.
    apply js_get_In in H1, H2.
    exact (bundles_not_shared _ _ _ _ _ _ Hw H1 H2 Heq).
  - intros w d connection fs Hw.
    exact (connect_adapter_one_bundle host d connection fs w Hw).
  - intros w d Hw. eexists. split; [apply disconnect_adapter_run|].
    exact (disconnect_adapter_one_bundle d w Hw).
Qed.

Lemma disposed_bundles (l : list EditorAdapter) :
  disposed (map AdapterDispose l) = map ea_ref l.
Proof. induction l; simpl; congruence. Qed.

Lemma disposed_app t1 t2 : disposed (t1 ++ t2) = disposed t1 ++ disposed t2.
Proof. apply flat_map_app. Qed.

(** Disposal of an initialized adapter releases every bundle once. *)
Lemma dispose_releases_once w e wd cm :
  one_bundle_per_document w ->
  isDisposed w = false -> virtual_editor w = Some e ->
  widget w = Some wd -> connection_manager w = Some cm ->
  NoDup (disposed (snd (dispose w))).
Proof.
  intros Hw Hd He Hwd Hm.
  rewrite (dispose_initialized w e wd cm Hd He Hwd Hm). cbn [snd].
  rewrite !disposed_app, disposed_bundles.
  change (disposed teardown_signals) with (@nil nat).
  change (disposed [DisconnectDocumentSignals (virtual_document e);
                    VirtualEditorDispose e]) with (@nil nat).
  rewrite app_nil_r. simpl.
  pose proof (bundles_ok_delete _ _ (id_path (virtual_document e)) Hw)
    as (_ & Hr & _).
  destruct (js_get (id_path (virtual_document e)) (adapters w)) as [a|] eqn:E;
    simpl; [|exact Hr].
  constructor; [|exact Hr].
  intros Hin. apply in_map_iff in Hin. destruct Hin as (b & Hb & Hin).
  unfold js_values in Hin. apply in_map_iff in Hin.
  destruct Hin as ([k b'] & Hk & Hin). simpl in Hk. subst b'.
  assert (k = id_path (virtual_document e)).
  { exact (bundles_not_shared _ _ _ _ _ _ Hw (js_delete_In _ _ _ Hin)
             (js_get_In _ _ _ E) Hb). }
  subst k. exact (js_delete_not_key _ _ _ Hin).
Qed.

(** ** The messages of a reload *)

(** Split a statement about every event of a trace along the trace. *)
Ltac forall_events :=
  repeat first
    [ apply Forall_nil
    | assumption
    | apply Forall_cons; [simpl; repeat split; auto|]
    | apply Forall_app; split ].

Lemma create_adapter_messages host d connection fs w :
  match create_adapter host d connection fs w with
  | (r, w1, t) => forall w', Forall (connection_message connection w' d) t
  end.
Proof.
  unfold create_adapter.
  destruct (integrations_frame d connection
              (match fs with None => features host | Some fs0 => fs0 end) w)
    as (r & E).
  unfold bind at 1. rewrite E. destruct r as [l|err].
  - unfold_monad. simpl. destruct connection as [c|]; simpl;
      intros w'; repeat constructor.
  - intros w'. constructor.
Qed.

(** The initial change reads the registry of the manager in the state in
    which it runs, and leaves that state as it is. *)
Lemma document_changed_initial_messages acquired w d doc :
  exists r t,
    document_changed d doc true w = (r, w, t) /\
    Forall (connection_message acquired w d) t.
Proof.
  unfold document_changed, connection_message, registered_connection.
  unfold_monad.
  destruct (isDisposed w).
  { eexists _, _. split; [reflexivity|]. repeat constructor. }
  destruct (connection_manager w) as [manager|]; simpl.
  2:{ eexists _, _. split; [reflexivity|]. constructor. }
  destruct (js_get (id_path d) (connections manager)) as [c|]; simpl.
  2:{ eexists _, _. split; [reflexivity|]. repeat constructor. }
  destruct (isReady c); simpl.
  2:{ eexists _, _. split; [reflexivity|]. repeat constructor. }
  destruct (js_get (id_path d) (adapters w)); simpl;
    eexists _, _; (split; [reflexivity|]); repeat constructor.
Qed.

(** Whatever the schedule and the state, [on_connected] sends open requests
    to the connection of its argument only, and full text to the connection
    registered, when the chain ends, under the id_path of the document. *)
Lemma on_connected_messages host s d connection w :
  match on_connected host s
          {| data_virtual_document := d; data_connection := connection |} w
  with
  | (r, w', t) => Forall (connection_message connection w' d) t
  end.
Proof.
  unfold on_connected, connect_adapter. cbn [data_virtual_document data_connection].
  pose proof (create_adapter_messages host d connection None w) as Hc.
  unfold bind at 1. unfold bind at 1.
  destruct (create_adapter host d connection None w) as [[[a|err] w1] t1];
    [|apply Hc].
  unfold update_documents. unfold_monad. cbn [fst snd].
  simpl.
  destruct (isDisposed w1); simpl; [forall_events; apply Hc|].
  destruct (virtual_editor w1) as [e|]; simpl; [|forall_events; apply Hc].
  destruct (update_settles s) as [[]|err]; simpl; [|forall_events; apply Hc].
  match goal with
  | |- context [document_changed d d true ?w2] =>
      destruct (document_changed_initial_messages connection w2 d d)
        as (r & t & E & Ht);
      rewrite E
  end.
  destruct r as [[]|err]; simpl; forall_events; apply Hc.
Qed.

(** The reload on an initialized adapter, along every schedule. *)
Lemma reload_connection_messages host s w e manager :
  virtual_editor w = Some e -> connection_manager w = Some manager ->
  exists w' t,
    reload_connection host s w =
      (Normal tt, w',
       UnregisterDocument (virtual_document e) ::
       connecting_events host (replacement host w) ++
       connect_request host (replacement host w) :: t) /\
    Forall (connection_message (acquired_connection s) w' (replacement host w)) t.
Proof.
  intros He Hm.
  rewrite (reload_connection_run host s w e manager He Hm),
    connect_document_run,
    (connect_run host s (replacement host w) (reloaded host e w) manager Hm).
  unfold acquired_connection.
  destruct (connect_settles s) as [connection|err].
  - pose proof (on_connected_messages host s (replacement host w) connection
                  (while_connecting s (reloaded host e w))) as H.
    destruct (on_connected host s _ _) as [[[[]|err] w'] t];
      [destruct connection|]; simpl; eexists _, _;
      (split; [reflexivity|]);
      apply Forall_app; (split; [exact H|]); repeat constructor.
  - simpl. eexists _, _. split; [reflexivity|]. repeat constructor.
Qed.

(** A message that satisfies [connection_message] is addressed to the
    acquired connection or to the registered one. *)
Lemma connection_message_addressee acquired w' d ev c :
  connection_message acquired w' d ev -> addressee ev = Some c ->
  acquired = Some c \/ registered_connection w' d = Some c.
Proof.
  destruct ev; simpl; try discriminate; try contradiction.
  - intros (H & _) [= <-]. auto.
  - intros (H & _) [= <-]. auto.
Qed.

(** The connect chain writes the allocation counter, the adapters map and
    the connected flag; a property of the adapter that these writes and the
    interleaved handlers keep holds when the chain ends. *)
Lemma connect_document_keeps host s d send_open (J : WidgetAdapter -> Prop) :
  (forall w, J w -> J (set_next_ref (S (next_ref w)) w)) ->
  (forall w m, J w -> J (set_adapters m w)) ->
  (forall w b, J w -> J (set_isConnected b w)) ->
  (forall w, J w -> J (while_connecting s w)) ->
  (forall w, J w -> J (while_updating s w)) ->
  preserves J (fun _ => True) (connect_document host s d send_open).
Proof.
  intros Ja Jm Jc J1 J2.
  unfold connect_document, connect_document_signals, connect_document_open,
    connect, on_connected, connect_adapter, create_adapter, integration,
    update_documents.
  run_cases;
    try match goal with
        | |- preserves _ _ (tell _) => apply preserves_tell; exact I
        | |- preserves _ _ (modify _) =>
            apply preserves_modify; intros ? ?; cbv beta; auto
        | |- preserves _ _ (await _ _) => apply preserves_await; auto
        | |- preserves _ _ alloc => apply preserves_alloc; auto
        end.
  apply document_changed_frame.
Qed.

(** The identity of the replacement is taken from the allocation counter,
    which the reload advances: no later object of the adapter gets it. *)
Lemma reload_connection_allocates host s w e manager :
  virtual_editor w = Some e -> connection_manager w = Some manager ->
  (forall w', next_ref w' <= next_ref (while_connecting s w')) ->
  (forall w', next_ref w' <= next_ref (while_updating s w')) ->
  vd_ref (replacement host w) < next_ref (snd (fst (reload_connection host s w))).
Proof.
  intros He Hm H1 H2.
  rewrite (reload_connection_run host s w e manager He Hm).
  assert (H : preserves (fun w' => next_ref w < next_ref w') (fun _ => True)
                (connect_document host s (replacement host w) true)).
  { apply connect_document_keeps; simpl; auto.
    - intros w' Hw'. specialize (H1 w'). lia.
    - intros w' Hw'. specialize (H2 w'). lia. }
  specialize (H (reloaded host e w)). simpl in H.
  specialize (H (Nat.lt_succ_diag_r _)).
  destruct (connect_document host s _ true _) as [[[[]|err] w'] t];
    simpl; exact (proj2 H).
Qed.

(** C6 (as amended).  A reload before the virtual editor exists does
    nothing.  On an initialized adapter, along every schedule, the reload
    unregisters the old document first, creates the replacement, connects
    its signals and asks the manager for a connection for it.  The
    replacement is a new object: on a heap where the old root document was
    allocated before, its identity differs from that of the old root, and
    when the reload ends the allocation counter has moved past it (the
    interleaved handlers not lowering the counter).  The replacement stays
    installed in the virtual editor (the interleaved handlers leaving the
    editor alone).  Every message the reload then sends carries the
    replacement: open requests go to the connection the manager hands out
    for this request, the initial full text goes to the connection the
    manager registers under the id_path of the replacement, and nothing
    else is sent.  Hence a connection that the manager neither hands out
    again nor keeps registered under that id_path receives nothing.  When
    the connection is acquired and the update resolves, the chain runs to
    its end and its last message is the open request for the replacement,
    sent to the acquired connection. *)
Theorem reload_connection_reconnects host s w :
  (virtual_editor w = None ->
     reload_connection host s w = (Normal tt, w, [])) /\
  (forall e manager,
     virtual_editor w = Some e -> connection_manager w = Some manager ->
     let d := replacement host w in
     (vd_ref (virtual_document e) < next_ref w ->
        vd_ref d <> vd_ref (virtual_document e)) /\
     ((forall w', next_ref w' <= next_ref (while_connecting s w')) ->
      (forall w', next_ref w' <= next_ref (while_updating s w')) ->
      vd_ref d < next_ref (snd (fst (reload_connection host s w)))) /\
     (exists w' t,
        reload_connection host s w =
          (Normal tt, w',
           UnregisterDocument (virtual_document e) ::
           connecting_events host d ++ connect_request host d :: t) /\
        Forall (connection_message (acquired_connection s) w' d) t /\
        forall old,
          acquired_connection s <> Some old ->
          registered_connection w' d <> Some old ->
          Forall (fun ev => addressee ev <> Some old)
                 (snd (reload_connection host s w))) /\
     ((forall w', virtual_editor (while_connecting s w') = virtual_editor w') ->
      (forall w', virtual_editor (while_updating s w') = virtual_editor w') ->
      virtual_editor (snd (fst (reload_connection host s w))) =
        Some {| editor_name := editor_name e; virtual_document := d |}) /\
     (forall c,
        isDisposed w = false -> constructible host e ->
        connect_settles s = Normal (Some c) -> update_settles s = Normal tt ->
        keeps_adapter (while_connecting s) -> keeps_adapter (while_updating s) ->
        exists w' mid,
          reload_connection host s w =
            (Normal tt, w',
             UnregisterDocument (virtual_document e) ::
             connecting_events host d ++
             connect_request host d ::
             connected_events host d c
               {| editor_name := editor_name e; virtual_document := d |} ++
             mid ++
             [initialized_log host; SendOpenWhenReady c (document_info d)]) /\
          Forall (initial_event w' d) mid)).
Proof.
  split; [apply reload_connection_premature|].
  intros e manager He Hm d.
  split; [|split; [|split; [|split]]].
  - subst d. unfold replacement. simpl. lia.
  - exact (reload_connection_allocates host s w e manager He Hm).
  - destruct (reload_connection_messages host s w e manager He Hm)
      as (w' & t & E & Ht).
    exists w', t. split; [exact E|]. split; [exact Ht|].
    intros old Ha Hr. rewrite E. cbn [snd].
    constructor; [discriminate|].
    apply Forall_app. split; [repeat constructor; discriminate|].
    constructor; [discriminate|].
    eapply Forall_impl; [|exact Ht]. cbv beta. intros ev Hev Hold.
    destruct (connection_message_addressee _ _ _ _ _ Hev Hold); contradiction.
  - exact (reload_connection_installs host s w e manager He Hm).
  - intros c Hd Hc Hcs Hus K1 K2.
    exact (reload_connection_reopens host s w e manager c
             Hd He Hm Hc Hcs Hus K1 K2).
Qed.

(** C6 as stated fails: when the manager answers the request for the
    replacement with the connection that served the notebook before the
    rename, the open request for the replacement is sent to that
    connection; the adapter never compares connections. *)
Lemma reload_connection_reuses_connection :
  registered_connection notebook_adapter notebook_document =
    Some python_connection /\
  In (SendOpenWhenReady python_connection
        (document_info (replacement notebook_host notebook_adapter)))
     (snd (reload_connection notebook_host reusing notebook_adapter)) /\
  ~ (forall host s w e old,
       virtual_editor w = Some e ->
       registered_connection w (virtual_document e) = Some old ->
       Forall (fun ev => addressee ev <> Some old)
              (snd (reload_connection host s w))).
Proof.
  assert (Hin : In (SendOpenWhenReady python_connection
                      (document_info (replacement notebook_host notebook_adapter)))
                   (snd (reload_connection notebook_host reusing notebook_adapter))).
  { vm_compute. tauto. }
  split; [reflexivity|]. split; [exact Hin|].
  intros H.
  specialize (H notebook_host reusing notebook_adapter notebook_editor
                python_connection eq_refl eq_refl).
  rewrite Forall_forall in H. exact (H _ Hin eq_refl).
Qed.

(** Likewise when the replacement keeps the id_path under which the
    manager still registers the old connection: a new connection is
    acquired and opened, and the initial full text of the replacement goes
    to the old one. *)
Example reload_connection_same_id_path :
  let t := snd (reload_connection moved_host calm notebook_adapter) in
  In (SendOpenWhenReady new_connection (document_info moved_document)) t /\
  In (SendFullTextChange python_connection (value moved_document)
        (document_info moved_document)) t.
Proof. vm_compute. tauto. Qed.

(** ** A bundle replaced under its id_path *)

(** [connect_adapter] with a connection, on an adapter whose features all
    integrate with the virtual editor: the bundle is built and stored. *)
Lemma connect_adapter_installs host d c fs w e :
  virtual_editor w = Some e ->
  Forall (fun feature =>
            js_get (editor_name e) (editorIntegrationFactory feature) <> None)
         (chosen_features host fs) ->
  exists a,
    ea_ref a = next_ref w /\ ea_virtual_document a = d /\
    connect_adapter host d (Some c) fs w =
      (Normal a,
       set_adapters (js_set (id_path d) a (adapters w))
         (set_next_ref (S (next_ref w)) w),
       [adapter_ready_log host; SendOpenWhenReady c (document_info d)]).
Proof.
  intros He Hc.
  destruct (integrations_constructed d (Some c) (chosen_features host fs) w e
              He Hc) as (l & El).
  eexists. split; [|split]; cycle 2.
  - unfold connect_adapter, create_adapter. fold (chosen_features host fs).
    unfold bind at 1. unfold bind at 1. rewrite El.
    unfold_monad. simpl. reflexivity.
  - reflexivity.
  - reflexivity.
Qed.

(** [dispose] disposes bundles of the adapters map only. *)
Lemma dispose_disposes_held w e r :
  live w -> virtual_editor w = Some e ->
  In r (disposed (snd (dispose w))) ->
  exists k b, In (k, b) (adapters w) /\ ea_ref b = r.
Proof.
  intros (Hd & Hw & Hm) He.
  destruct (widget w) as [wd|] eqn:Ewd; [|now elim Hw].
  destruct (connection_manager w) as [cm|] eqn:Ecm; [|now elim Hm].
  rewrite (dispose_initialized w e wd cm Hd He Ewd Ecm). cbn [snd].
  rewrite !disposed_app, disposed_bundles.
  change (disposed teardown_signals) with (@nil nat).
  change (disposed [DisconnectDocumentSignals (virtual_document e);
                    VirtualEditorDispose e]) with (@nil nat).
  rewrite app_nil_r. simpl. intros Hin. apply in_app_or in Hin.
  destruct Hin as [Hin | Hin].
  - destruct (js_get (id_path (virtual_document e)) (adapters w)) as [a|] eqn:E;
      simpl in Hin; [|contradiction].
    destruct Hin as [<- | []]. exists (id_path (virtual_document e)), a.
    split; [exact (js_get_In _ _ _ E) | reflexivity].
  - apply in_map_iff in Hin. destruct Hin as (b & Hb & Hin).
    unfold js_values in Hin. apply in_map_iff in Hin.
    destruct Hin as ([k b'] & Hk & Hin). simpl in Hk. subst b'.
    exists k, b. split; [exact (js_delete_In _ _ _ Hin) | exact Hb].
Qed.

(** C8 (the code departs from it).  [connect_adapter] for an id_path that
    already holds a bundle succeeds and stores the new bundle in its place;
    the map keeps one bundle per id_path, but the bundle that was replaced
    is not disposed: not by [connect_adapter], and, no key holding it any
    more, not by a later [disconnect_adapter] for the document nor by the
    [dispose] of the adapter. *)
Theorem connect_adapter_replaces_undisposed host d c fs w e old :
  one_bundle_per_document w -> live w -> virtual_editor w = Some e ->
  Forall (fun feature =>
            js_get (editor_name e) (editorIntegrationFactory feature) <> None)
         (chosen_features host fs) ->
  js_get (id_path d) (adapters w) = Some old ->
  exists a w' t,
    connect_adapter host d (Some c) fs w = (Normal a, w', t) /\
    ea_ref a <> ea_ref old /\
    js_get (id_path d) (adapters w') = Some a /\
    one_bundle_per_document w' /\
    (forall k b, js_get k (adapters w') = Some b -> ea_ref b <> ea_ref old) /\
    ~ In (ea_ref old) (disposed t) /\
    ~ In (ea_ref old) (disposed (snd (disconnect_adapter d w'))) /\
    ~ In (ea_ref old) (disposed (snd (dispose w'))).
Proof.
  intros Hb Hl He Hc Hold.
  destruct (connect_adapter_installs host d c fs w e He Hc)
    as (a & Hr & _ & E).
  pose proof (connect_adapter_one_bundle host d (Some c) fs w Hb) as Hinv.
  rewrite E in Hinv. destruct Hinv as (Hb' & Hinst).
  destruct (Hinst a eq_refl) as (Hget & Hother & Hnew).
  set (w' := set_adapters _ _) in *.
  assert (Hne : ea_ref a <> ea_ref old).
  { intros Heq. exact (Hnew _ _ Hold (eq_sym Heq)). }
  assert (Hgone : forall k b, js_get k (adapters w') = Some b ->
                              ea_ref b <> ea_ref old).
  { intros k b Hk Heq.
    destruct (String.eqb (id_path d) k) eqn:Ek.
    - apply String.eqb_eq in Ek. subst k. rewrite Hget in Hk.
      injection Hk as <-. exact (Hne Heq).
    - apply String.eqb_neq in Ek. rewrite (Hother k Ek) in Hk.
      apply Ek. symmetry.
      exact (bundles_not_shared _ _ _ _ _ _ Hb (js_get_In _ _ _ Hk)
               (js_get_In _ _ _ Hold) Heq). }
  exists a, w', [adapter_ready_log host; SendOpenWhenReady c (document_info d)].
  split; [exact E|]. split; [exact Hne|]. split; [exact Hget|].
  split; [exact Hb'|]. split; [exact Hgone|]. split; [|split].
  - simpl. tauto.
  - rewrite disconnect_adapter_run. cbn [snd]. rewrite Hget. simpl.
    intros [Heq | []]. exact (Hne Heq).
  - intros Hin.
    assert (Hl' : live w') by exact Hl.
    destruct (dispose_disposes_held w' e _ Hl' He Hin) as (k & b & Hkb & Heq).
    destruct Hb' as (Hkeys & _).
    exact (Hgone k b (js_In_get _ _ _ Hkeys Hkb) Heq).
Qed.

(** The same inside the class: a foreign document is opened, closed and
    opened again under its id_path.  [on_foreign_document_closed] leaves
    the bundle in the map, the second [on_connected] replaces it, and the
    disposal of the adapter disposes the bundle of the notebook and the
    second bundle of the foreign document; the first one, allocated as
    object 8, is never disposed. *)
Example foreign_document_reopened :
  map (fun kv => (fst kv, ea_ref (snd kv))) (adapters reopened_adapter) =
    [("nb#py", 3); ("nb#py.r", 9)] /\
  disposed (snd (dispose reopened_adapter)) = [3; 9].
Proof. split; reflexivity. Qed.

(** ** Instances on the notebook adapter *)

Lemma document_changed_dropped_witness :
  exists r t,
    document_changed notebook_document notebook_document false fresh_adapter
      = (r, fresh_adapter, t) /\
    (forall c text info, ~ In (SendFullTextChange c text info) t) /\
    (forall root a, ~ In (UpdateAfterChangeLocked root a) t) /\
    (connection_manager fresh_adapter <> None -> r = Normal tt).
Proof.
  apply (document_changed_dropped fresh_adapter notebook_document
           notebook_document false).
  left. reflexivity.
Defined.

Lemma initial_change_not_propagated_witness :
  document_changed notebook_document notebook_document false notebook_adapter =
    (Normal tt, notebook_adapter,
     [SendFullTextChange python_connection "print(1)"
        (document_info notebook_document);
      UpdateAfterChangeLocked notebook_document notebook_bundle]) /\
  (let run := on_connected notebook_host calm
                {| data_virtual_document := notebook_document;
                   data_connection := Some new_connection |} notebook_adapter in
   fst (fst run) = Normal tt /\
   In (SendFullTextChange python_connection (value notebook_document)
         (document_info notebook_document)) (snd run)).
Proof.
  destruct (initial_change_not_propagated notebook_host) as (HA & _ & HC).
  split.
  - apply (HA notebook_adapter notebook_manager python_connection
             notebook_bundle notebook_editor notebook_document
             notebook_document false); reflexivity.
  - apply (HC calm notebook_document new_connection python_connection
             notebook_adapter notebook_editor); try reflexivity.
    + repeat constructor. discriminate.
    + intros w'. repeat split; reflexivity.
Defined.

Lemma connect_document_acquisition_rejected_witness :
  connect_document notebook_host no_server foreign_r_document true
    notebook_adapter =
    (Normal tt, notebook_adapter,
     connecting_events notebook_host foreign_r_document ++
     [connect_request notebook_host foreign_r_document;
      ConsoleWarnError (ExternalError "server not installed")] ++
     [not_opened_warning foreign_r_document]).
Proof.
  apply (connect_document_acquisition_rejected notebook_host no_server
           foreign_r_document true notebook_adapter
           (ExternalError "server not installed")).
  reflexivity.
Defined.

Lemma update_documents_disposed_witness :
  update_documents notebook_host disposed_adapter =
    (Normal None, disposed_adapter,
     [ConsoleWarn ["Cannot update documents: adapter disposed"]]) /\
  onContentChanged notebook_host calm disposed_adapter =
    (Abrupt (TypeError "this.update_documents(...).catch"), disposed_adapter,
     [ConsoleWarn ["Cannot update documents: adapter disposed"]]).
Proof.
  apply (update_documents_disposed notebook_host calm disposed_adapter).
  reflexivity.
Defined.

Lemma on_save_state_completed_witness :
  on_save_state completed notebook_adapter =
    (Normal tt, notebook_adapter,
     [SendSaved python_connection (document_info notebook_document)]).
Proof.
  apply (on_save_state_completed notebook_adapter notebook_editor
           notebook_manager completed); reflexivity.
Defined.

Lemma on_connection_closed_other_document_witness :
  on_connection_closed
    {| data_virtual_document := foreign_r_document;
       data_connection := Some new_connection |} notebook_adapter =
    (Normal tt, notebook_adapter,
     [closed_log {| data_virtual_document := foreign_r_document;
                    data_connection := Some new_connection |}]).
Proof.
  apply (on_connection_closed_other_document notebook_adapter
           {| data_virtual_document := foreign_r_document;
              data_connection := Some new_connection |}).
  reflexivity.
Defined.

Lemma notebook_adapter_one_bundle : one_bundle_per_document notebook_adapter.
Proof.
  repeat split; repeat constructor; simpl; tauto.
Qed.

Lemma one_bundle_per_id_path_witness :
  exists w',
    disconnect_adapter notebook_document notebook_adapter =
      (Normal tt, w', [AdapterDispose notebook_bundle]) /\
    one_bundle_per_document w' /\
    js_get "nb#py" (adapters w') = None.
Proof.
  destruct (one_bundle_per_id_path notebook_host) as (_ & _ & _ & H).
  destruct (H notebook_adapter notebook_document notebook_adapter_one_bundle)
    as (w' & E & Hw' & Hg & _).
  exists w'. auto.
Defined.

Lemma reload_connection_reconnects_witness :
  let d := replacement notebook_host notebook_adapter in
  vd_ref d <> vd_ref notebook_document /\
  vd_ref d <
    next_ref (snd (fst (reload_connection notebook_host calm notebook_adapter))) /\
  exists w' mid,
    reload_connection notebook_host calm notebook_adapter =
      (Normal tt, w',
       UnregisterDocument notebook_document ::
       connecting_events notebook_host d ++
       connect_request notebook_host d ::
       connected_events notebook_host d new_connection
         {| editor_name := "CodeMirrorEditor"; virtual_document := d |} ++
       mid ++
       [initialized_log notebook_host;
        SendOpenWhenReady new_connection (document_info d)]) /\
    Forall (initial_event w' d) mid.
Proof.
  destruct (reload_connection_reconnects notebook_host calm notebook_adapter)
    as [_ H].
  destruct (H notebook_editor notebook_manager eq_refl eq_refl)
    as (Hfresh & Halloc & _ & _ & Hopen).
  split; [apply Hfresh; simpl; lia|].
  split; [apply Halloc; intros w'; simpl; lia|].
  apply (Hopen new_connection); try reflexivity.
  - repeat constructor. discriminate.
  - intros w. repeat split; auto.
  - intros w. repeat split; auto.
Defined.

(** ** The status message and its timer *)

Lemma tracked_constructor :
  StatusMessage.tracked (StatusMessage.constructor, StatusMessage.idle).
Proof. simpl. repeat split; auto. Qed.

(** [expire_timer] leaves the table empty. *)
Lemma expire_timer_empties s :
  StatusMessage.tracked s ->
  StatusMessage.pending (snd (StatusMessage.expire_timer s)) = [] /\
  StatusMessage.next_handle (snd (StatusMessage.expire_timer s)) =
    StatusMessage.next_handle (snd s) /\
  StatusMessage.message (fst (StatusMessage.expire_timer s)) =
    StatusMessage.message (fst s).
Proof.
  destruct s as [[msg tm] [pd nh]]. simpl.
  intros (Hn & Hb & [-> | (h & delay & -> & ->)]).
  - destruct tm; simpl; auto.
  - simpl. rewrite Nat.eqb_refl. simpl. auto.
Qed.

Lemma tracked_set msg timeout s :
  StatusMessage.tracked s ->
  StatusMessage.tracked (fst (StatusMessage.set msg timeout s)).
Proof.
  intros H. destruct (expire_timer_empties s H) as (Hp & Hh & _).
  destruct s as [this win]. destruct H as (Hn & _).
  unfold StatusMessage.set.
  destruct (StatusMessage.expire_timer (this, win)) as [this' win'].
  simpl in Hp, Hh. destruct win' as [pd nh]. simpl in Hp, Hh. subst pd nh.
  destruct (Z.eqb timeout (-1)); simpl.
  - split; [exact Hn|]. split; [constructor | left; reflexivity].
  - split; [lia|]. split.
    + constructor; [simpl; lia | constructor].
    + right. eauto.
Qed.

Lemma tracked_clear s :
  StatusMessage.tracked s ->
  StatusMessage.tracked (fst (StatusMessage.clear s)).
Proof. destruct s as [this win]. simpl. auto. Qed.

Lemma tracked_fire h s :
  StatusMessage.tracked s ->
  StatusMessage.tracked (fst (StatusMessage.fire h s)).
Proof.
  destruct s as [[msg tm] [pd nh]]. unfold StatusMessage.fire.
  intros H.
  destruct (StatusMessage.is_pending h _) eqn:E; [|exact H].
  unfold StatusMessage.is_pending in E.
  destruct H as (Hn & Hb & [Hp | (h' & delay & Hp & Ht)]);
    simpl in Hp; subst pd; simpl in E.
  - discriminate.
  - rewrite orb_false_r in E. simpl. rewrite E. simpl. auto.
Qed.

Lemma tracked_run ops s :
  StatusMessage.tracked s ->
  StatusMessage.tracked (fst (StatusMessage.run ops s)).
Proof.
  revert s. induction ops as [|op ops IH]; simpl; intros s H; [exact H|].
  assert (H1 : StatusMessage.tracked (fst (StatusMessage.step op s))).
  { destruct op; simpl;
      [apply tracked_set | apply tracked_clear | apply tracked_fire]; exact H. }
  destruct (StatusMessage.step op s) as [s1 t1]. specialize (IH s1 H1).
  destruct (StatusMessage.run ops s1) as [s2 t2]. exact IH.
Qed.

(** X1.  Whatever is done to a status message (set, clear, timers
    firing), at most one timer is pending for it, and it is the one the
    object remembers. *)
Theorem status_message_one_timer ops :
  let s := fst (StatusMessage.run ops
                  (StatusMessage.constructor, StatusMessage.idle)) in
  length (StatusMessage.pending (snd s)) <= 1 /\
  forall h delay,
    In (h, delay) (StatusMessage.pending (snd s)) ->
    StatusMessage.timer (fst s) = Some h.
Proof.
  intros s. pose proof (tracked_run ops _ tracked_constructor) as H.
  fold s in H. destruct s as [this win]. simpl in *.
  destruct H as (_ & _ & [-> | (h' & delay' & -> & Ht)]); simpl.
  - split; [lia | tauto].
  - split; [lia|]. intros h delay [[= <- <-] | []]. exact Ht.
Qed.

(** Firing handles that are not in the table does nothing. *)
Lemma fire_stale hs s :
  (forall h, In h hs -> StatusMessage.is_pending h (snd s) = false) ->
  StatusMessage.run (map StatusMessage.OpFire hs) s = (s, []).
Proof.
  induction hs as [|h hs IH]; simpl; intros H; [reflexivity|].
  destruct s as [this win]. unfold StatusMessage.fire.
  pose proof (H h (or_introl eq_refl)) as Hh. simpl in Hh. rewrite Hh.
  rewrite IH; auto.
Qed.

(** X2.  [set] shows the message, notifies the listeners once, and
    replaces whatever timer was pending: with timeout -1 no timer is left,
    otherwise only the new one with the requested delay.  Timers set
    earlier can no longer clear the message. *)
Theorem status_message_set_replaces_timer msg timeout s :
  StatusMessage.tracked s ->
  let s' := fst (StatusMessage.set msg timeout s) in
  let h := StatusMessage.next_handle (snd s) in
  StatusMessage.message (fst s') = msg /\
  snd (StatusMessage.set msg timeout s) = [StatusMessage.Changed msg] /\
  StatusMessage.pending (snd s') =
    (if Z.eqb timeout (-1) then [] else [(h, timeout)]) /\
  forall hs,
    (timeout = (-1)%Z \/ ~ In h hs) ->
    StatusMessage.run (map StatusMessage.OpFire hs) s' = (s', []).
Proof.
  intros H s' h. subst s' h.
  destruct (expire_timer_empties s H) as (Hp & Hh & _).
  destruct s as [this win]. unfold StatusMessage.set.
  destruct (StatusMessage.expire_timer (this, win)) as [this' win'].
  simpl in Hp, Hh. destruct win' as [pd nh]. simpl in Hp, Hh. subst pd nh.
  destruct (Z.eqb timeout (-1)) eqn:E; simpl.
  - repeat split. intros hs _. apply fire_stale. intros h _. reflexivity.
  - repeat split. intros hs [-> | Hs]; [discriminate|].
    apply fire_stale. intros h Hin. unfold StatusMessage.is_pending. simpl.
    destruct (Nat.eqb_spec (StatusMessage.next_handle win) h) as [<-|];
      [elim (Hs Hin) | reflexivity].
Qed.

(** X3.  When the timer scheduled by [set] fires, the message is cleared,
    the listeners are notified once, and no timer is left. *)
Theorem status_message_expires msg timeout s :
  StatusMessage.tracked s -> timeout <> (-1)%Z ->
  let s' := fst (StatusMessage.set msg timeout s) in
  let r := StatusMessage.fire (StatusMessage.next_handle (snd s)) s' in
  StatusMessage.message (fst (fst r)) = "" /\
  snd r = [StatusMessage.Changed ""] /\
  StatusMessage.pending (snd (fst r)) = [].
Proof.
  intros H Ht s' r. subst r s'.
  destruct (expire_timer_empties s H) as (Hp & Hh & _).
  destruct s as [this win]. unfold StatusMessage.set.
  destruct (StatusMessage.expire_timer (this, win)) as [this' win'].
  simpl in Hp, Hh. destruct win' as [pd nh]. simpl in Hp, Hh. subst pd nh.
  apply Z.eqb_neq in Ht. rewrite Ht. simpl.
  unfold StatusMessage.fire, StatusMessage.is_pending. simpl.
  rewrite Nat.eqb_refl. simpl. rewrite Nat.eqb_refl. auto.
Qed.

(** ** Bundles and their features *)

Lemma integrations_bound d connection fs w e :
  virtual_editor w = Some e ->
  Forall (fun feature =>
            js_get (editor_name e) (editorIntegrationFactory feature) <> None) fs ->
  exists l,
    map_m (integration d connection) fs w = (Normal l, w, []) /\
    map fi_feature l = fs /\
    Forall (fun i =>
              fi_virtual_document i = d /\ fi_connection i = connection /\
              js_get (editor_name e) (editorIntegrationFactory (fi_feature i)) =
                Some (fi_constructor i)) l.
Proof.
  intros He. induction 1 as [|f fs Hf _ IH]; simpl.
  - exists []. repeat split; constructor.
  - destruct IH as (l & IH & Hm & Hl).
    destruct (js_get (editor_name e) (editorIntegrationFactory f)) as [c|] eqn:E;
      [|now elim Hf].
    assert (Hi : integration d connection f w =
                 (Normal {| fi_constructor := c; fi_feature := f;
                            fi_virtual_document := d;
                            fi_connection := connection |}, w, [])).
    { unfold integration. unfold_monad. rewrite He. simpl. now rewrite E. }
    eexists. unfold bind. rewrite Hi, IH. split; [reflexivity|].
    split; [simpl; now rewrite Hm|].
    constructor; [simpl; auto | exact Hl].
Qed.

(** X4.  After [connect_adapter] has returned, [get_features] of the
    document gives the integrations of the new bundle: one per feature, in
    the order of the features (those passed, by default those of the
    feature manager), each built by the constructor registered for the
    editor and bound to the document and the connection passed. *)
Theorem connect_adapter_get_features host d c fs w e :
  virtual_editor w = Some e ->
  Forall (fun feature =>
            js_get (editor_name e) (editorIntegrationFactory feature) <> None)
         (chosen_features host fs) ->
  exists a w' t,
    connect_adapter host d (Some c) fs w = (Normal a, w', t) /\
    get_features w' d = Some (ea_features a) /\
    map fi_feature (ea_features a) = chosen_features host fs /\
    Forall (fun i =>
              fi_virtual_document i = d /\ fi_connection i = Some c /\
              js_get (editor_name e) (editorIntegrationFactory (fi_feature i)) =
                Some (fi_constructor i)) (ea_features a).
Proof.
  intros He Hf.
  destruct (integrations_bound d (Some c) _ w e He Hf) as (l & El & Hm & Hl).
  unfold connect_adapter, create_adapter. fold (chosen_features host fs).
  unfold bind at 1. unfold bind at 1. rewrite El.
  unfold_monad. simpl. eexists _, _, _. split; [reflexivity|].
  unfold get_features. simpl. rewrite js_get_set_same. simpl. auto.
Qed.

Lemma integrations_fail d connection fs w :
  (virtual_editor w = None /\ fs <> []) \/
  (exists e, virtual_editor w = Some e /\
             Exists (fun feature =>
                       js_get (editor_name e) (editorIntegrationFactory feature)
                       = None) fs) ->
  exists what,
    map_m (integration d connection) fs w = (Abrupt (TypeError what), w, []).
Proof.
  intros [[He Hfs] | (e & He & Hex)].
  - destruct fs as [|f fs]; [now elim Hfs|]. simpl.
    unfold bind at 1. unfold integration at 1. unfold_monad. rewrite He.
    simpl. eauto.
  - induction Hex as [f fs Hf | f fs _ IH]; simpl.
    + unfold bind at 1. unfold integration at 1. unfold_monad. rewrite He.
      simpl. rewrite Hf. simpl. eauto.
    + destruct IH as (what & IH).
      unfold bind at 1. unfold integration at 1. unfold_monad. rewrite He.
      simpl.
      destruct (js_get (editor_name e) (editorIntegrationFactory f));
        simpl; [|eauto].
      rewrite IH. eauto.
Qed.

(** X6.  When an integration cannot be constructed (no virtual editor, or
    a feature without a constructor for the editor), [connect_adapter]
    throws a TypeError before anything else happens: the adapter is
    unchanged, nothing is logged and no open request is sent. *)
Theorem connect_adapter_fails_clean host d connection fs w :
  (virtual_editor w = None /\ chosen_features host fs <> []) \/
  (exists e, virtual_editor w = Some e /\
             Exists (fun feature =>
                       js_get (editor_name e) (editorIntegrationFactory feature)
                       = None) (chosen_features host fs)) ->
  exists what,
    connect_adapter host d connection fs w = (Abrupt (TypeError what), w, []).
Proof.
  intros H. destruct (integrations_fail d connection _ w H) as (what & E).
  exists what. unfold connect_adapter, create_adapter.
  fold (chosen_features host fs). unfold bind at 1. unfold bind at 1.
  now rewrite E.
Qed.

(** X5.  After [disconnect_adapter], [get_features] of the document is
    undefined, and the features of every other document are as before. *)
Theorem disconnect_adapter_get_features d w :
  let w' := snd (fst (disconnect_adapter d w)) in
  get_features w' d = None /\
  forall d', id_path d <> id_path d' -> get_features w' d' = get_features w d'.
Proof.
  rewrite disconnect_adapter_run. simpl. unfold get_features. simpl. split.
  - now rewrite js_get_delete_same.
  - intros d' Hd. now rewrite js_get_delete_other.
Qed.

(** ** The connect chain, further *)

(** [connect_document], one layer, for either value of [send_open]. *)
Lemma connect_document_layer host s d send_open w :
  connect_document host s d send_open w =
    match connect host s d w with
    | (r, w', t) =>
        (Normal tt, w',
         [ SignalConnect (sig_changed d) slot_document_changed;
           SignalConnect (sig_foreign_document_opened d)
             slot_on_foreign_document_opened ] ++
         t ++ connection_outcome d send_open r)
    end.
Proof.
  unfold connect_document, connect_document_signals, connect_document_open,
    connection_outcome.
  unfold_monad. simpl.
  destruct (connect host s d w) as [[[[d' [c|]]|err] w'] t];
    destruct send_open; simpl; rewrite ?app_nil_r, <- ?app_assoc; reflexivity.
Qed.

(** Without a connection [create_adapter] fails, at the latest when it
    wants to send the open request. *)
Lemma create_adapter_without_connection host d fs w :
  exists n err t,
    create_adapter host d None fs w = (Abrupt err, set_next_ref n w, t) /\
    (t = [] \/ t = [adapter_ready_log host]).
Proof.
  unfold create_adapter.
  destruct (integrations_frame d None
              (match fs with None => features host | Some fs0 => fs0 end) w)
    as (r & E).
  unfold bind at 1. rewrite E. destruct r as [l|err].
  - unfold_monad. simpl. eexists _, _, _. split; [reflexivity|]. auto.
  - exists (next_ref w), err, []. split; [now destruct w | auto].
Qed.

(** X7.  When the manager resolves the acquisition without a connection,
    [connect_document] still resolves: the failure is logged, no bundle is
    installed, the adapter is not marked connected, and no open request
    and no full text are sent. *)
Theorem connect_document_without_connection host s d send_open w manager :
  connection_manager w = Some manager ->
  connect_settles s = Normal None ->
  exists n err t,
    connect_document host s d send_open w =
      (Normal tt, set_next_ref n (while_connecting s w),
       connecting_events host d ++ connect_request host d :: t ++
       [ConsoleWarnError err] ++
       if send_open then [not_opened_warning d] else []) /\
    (t = [] \/ t = [adapter_ready_log host]).
Proof.
  intros Hm Hs.
  destruct (create_adapter_without_connection host d None (while_connecting s w))
    as (n & err & t & E & Ht).
  exists n, err, t. split; [|exact Ht].
  rewrite connect_document_layer, (connect_run host s d w manager Hm), Hs.
  unfold on_connected, connect_adapter. simpl data_virtual_document.
  simpl data_connection. unfold bind at 1. unfold bind at 1. rewrite E.
  unfold connection_outcome. destruct send_open; simpl;
    rewrite <- ?app_assoc; reflexivity.
Qed.

(** X8.  When the update of the virtual documents is rejected after the
    connection was acquired, [connect_document] still resolves and logs the
    rejection; by then the bundle is installed, the adapter is marked
    connected and the open request of [create_adapter] is out, but the
    initial full text is never sent (and with [send_open] the warning
    is printed instead of the second open request). *)
Theorem connect_document_update_rejected host s d send_open w manager c e err :
  connection_manager w = Some manager ->
  connect_settles s = Normal (Some c) ->
  isDisposed (while_connecting s w) = false ->
  virtual_editor (while_connecting s w) = Some e ->
  constructible host e ->
  update_settles s = Abrupt err ->
  exists a,
    ea_ref a = next_ref (while_connecting s w) /\
    connect_document host s d send_open w =
      (Normal tt,
       while_updating s
         (set_isConnected true
            (set_adapters
               (js_set (id_path d) a (adapters (while_connecting s w)))
               (set_next_ref (S (next_ref (while_connecting s w)))
                  (while_connecting s w)))),
       connecting_events host d ++ connect_request host d ::
       connected_events host d c e ++ [ConsoleWarnError err] ++
       if send_open then [not_opened_warning d] else []).
Proof.
  intros Hm Hs Hd He Hc Hu.
  destruct (connect_adapter_constructed host d c _ e He Hc) as (a & Hr & _ & E).
  exists a. split; [exact Hr|].
  rewrite connect_document_layer, (connect_run host s d w manager Hm), Hs.
  unfold on_connected. simpl data_virtual_document. simpl data_connection.
  unfold bind at 1. rewrite E.
  unfold update_documents. unfold_monad. simpl. rewrite Hd, He, Hu. simpl.
  unfold connection_outcome. destruct send_open; simpl; reflexivity.
Qed.

(** The connect chain on a live adapter, when everything settles well. *)
Lemma connect_document_connected host s d send_open w manager c e :
  connection_manager w = Some manager ->
  isDisposed w = false -> virtual_editor w = Some e -> constructible host e ->
  connect_settles s = Normal (Some c) -> update_settles s = Normal tt ->
  keeps_adapter (while_connecting s) -> keeps_adapter (while_updating s) ->
  exists w' mid,
    connect_document host s d send_open w =
      (Normal tt, w',
       connecting_events host d ++ connect_request host d ::
       connected_events host d c e ++ mid ++
       initialized_log host ::
       if send_open then [SendOpenWhenReady c (document_info d)] else []) /\
    Forall (initial_event w' d) mid /\ virtual_editor w' = Some e.
Proof.
  intros Hm Hd He Hc Hcs Hus K1 K2.
  rewrite connect_document_layer, (connect_run host s d w manager Hm), Hcs.
  set (wa := while_connecting s w).
  destruct (K1 w) as (Ke & Kd & Km). fold wa in Ke, Kd, Km.
  assert (Hda : isDisposed wa = false) by (rewrite Kd; exact Hd).
  assert (Hea : virtual_editor wa = Some e) by (rewrite Ke; exact He).
  assert (Hma : connection_manager wa <> None).
  { apply Km. rewrite Hm. discriminate. }
  destruct (on_connected_run host s d c wa e Hda Hea Hc Hus) as (a & _ & _ & E).
  rewrite E. clear E.
  set (wb := while_updating s _).
  destruct (K2 (set_isConnected true
                  (set_adapters (js_set (id_path d) a (adapters wa))
                     (set_next_ref (S (next_ref wa)) wa))))
    as (Ke2 & Kd2 & Km2).
  fold wb in Ke2, Kd2, Km2. simpl in Ke2, Kd2, Km2.
  assert (Hdb : isDisposed wb = false) by (rewrite Kd2; exact Hda).
  destruct (document_changed_initial_normal wb d d Hdb (Km2 Hma))
    as (mid & Emid & Hmid).
  rewrite Emid. exists wb, mid. split; [|split; [exact Hmid|]].
  - unfold connection_outcome. destruct send_open; simpl;
      rewrite <- !app_assoc; reflexivity.
  - rewrite Ke2. exact Hea.
Qed.

Lemma opened_app t1 t2 : opened (t1 ++ t2) = opened t1 ++ opened t2.
Proof. apply flat_map_app. Qed.

Lemma opened_initial w d t : Forall (initial_event w d) t -> opened t = [].
Proof.
  induction 1 as [|ev t Hev _ IH]; [reflexivity|].
  destruct ev; simpl in *; try contradiction; exact IH.
Qed.

(** X9.  On a live adapter whose connection is acquired, the connect
    chain requests the opening of the document once without [send_open]
    (by [create_adapter]) and twice with it, each time on the acquired
    connection with the document-info of the document. *)
Theorem connect_document_open_requests host s d send_open w manager c e :
  connection_manager w = Some manager ->
  isDisposed w = false -> virtual_editor w = Some e -> constructible host e ->
  connect_settles s = Normal (Some c) -> update_settles s = Normal tt ->
  keeps_adapter (while_connecting s) -> keeps_adapter (while_updating s) ->
  opened (snd (connect_document host s d send_open w)) =
    (c, document_info d) ::
    if send_open then [(c, document_info d)] else [].
Proof.
  intros Hm Hd He Hc Hcs Hus K1 K2.
  destruct (connect_document_connected host s d send_open w manager c e
              Hm Hd He Hc Hcs Hus K1 K2) as (w' & mid & E & Hmid & _).
  rewrite E. cbn [snd].
  change (connect_request host d :: connected_events host d c e ++ mid ++
          initialized_log host ::
          (if send_open then [SendOpenWhenReady c (document_info d)] else []))
    with ([connect_request host d] ++ connected_events host d c e ++ mid ++
          [initialized_log host] ++
          (if send_open then [SendOpenWhenReady c (document_info d)] else [])).
  rewrite !opened_app, (opened_initial w' d mid Hmid).
  destruct send_open; reflexivity.
Qed.

(** ** After disposal *)

(** X10.  Once an initialized adapter is disposed, the signals that still
    reach it are ignored: a second disposal, a save state, a reload, a
    document change and a closed connection return normally, leave the
    adapter as it is and call no collaborator (a change only warns, a
    closed connection only logs). *)
Theorem disposed_adapter_ignores_signals host s w e :
  live w -> virtual_editor w = Some e ->
  let w' := snd (fst (dispose w)) in
  isDisposed w' = true /\
  dispose w' = (Normal tt, w', []) /\
  (forall state, on_save_state state w' = (Normal tt, w', [])) /\
  reload_connection host s w' = (Normal tt, w', []) /\
  (forall d doc is_init,
      document_changed d doc is_init w' =
        (Normal tt, w', [ConsoleWarn ["Cannot swap document: adapter disposed"]])) /\
  (forall data, on_connection_closed data w' = (Normal tt, w', [closed_log data])).
Proof.
  intros (Hd & Hw & Hm) He.
  destruct (widget w) as [wd|] eqn:Ewd; [|now elim Hw].
  destruct (connection_manager w) as [cm|] eqn:Ecm; [|now elim Hm].
  rewrite (dispose_initialized w e wd cm Hd He Ewd Ecm). cbn [fst snd].
  repeat split.
Qed.

(** X11.  On a disposed adapter the commands that need the editor fail:
    [get_context] and the [widget_id] getter throw a TypeError, and change
    nothing. *)
Theorem disposed_adapter_rejects_commands positions w e :
  live w -> virtual_editor w = Some e ->
  let w' := snd (fst (dispose w)) in
  (forall p,
      get_context positions p w' =
        (Abrupt (TypeError "this.virtual_editor"), w', [])) /\
  get_widget_id w' = (Abrupt (TypeError "this.widget"), w', []).
Proof.
  intros (Hd & Hw & Hm) He.
  destruct (widget w) as [wd|] eqn:Ewd; [|now elim Hw].
  destruct (connection_manager w) as [cm|] eqn:Ecm; [|now elim Hm].
  rewrite (dispose_initialized w e wd cm Hd He Ewd Ecm). cbn [fst snd].
  repeat split.
Qed.

(** ** Signal wiring *)

Lemma dispose_widget_disconnects :
  preserves (fun _ => True) widget_disconnect dispose.
Proof.
  unfold dispose, disconnect_adapter.
  run_cases;
    try (apply preserves_modify; auto);
    apply preserves_tell; simpl; tauto.
Qed.

Lemma disconnected_app t1 t2 :
  disconnected (t1 ++ t2) = disconnected t1 ++ disconnected t2.
Proof. apply flat_map_app. Qed.

Lemma connected_app t1 t2 : connected (t1 ++ t2) = connected t1 ++ connected t2.
Proof. apply flat_map_app. Qed.

Lemma disconnected_bundles (l : list EditorAdapter) :
  disconnected (map AdapterDispose l) = [].
Proof. induction l; simpl; auto. Qed.

Lemma teardown_calls_bundles (l : list EditorAdapter) :
  filter (fun ev => match ev with
                    | AdapterDispose _ => false
                    | _ => true
                    end) (map AdapterDispose l) = [].
Proof. induction l; simpl; auto. Qed.

(** X12.  The constructor and [connect_contentChanged_signal] connect four
    signals of the widget and of the manager.  On a live adapter [dispose]
    disconnects exactly these four (also when it then fails for lack of a
    virtual editor), and in no state does it disconnect a signal of its
    own accord beyond them.  The signals of the documents are not
    disconnected by [dispose] itself: besides the disposal of the bundles,
    the calls of [dispose] on a live, initialized adapter are the four
    disconnections followed by [disconnect_document_signals] of the manager
    for the root document and the disposal of the virtual editor; without a
    virtual editor they are the four disconnections alone. *)
Theorem dispose_signal_wiring :
  (forall ap manager wd heap,
      let (w0, t0) := constructor ap manager wd heap in
      connected (t0 ++ snd (connect_contentChanged_signal w0)) = widget_signals) /\
  (forall w, live w -> disconnected (snd (dispose w)) = widget_signals) /\
  (forall w c, In c (disconnected (snd (dispose w))) -> In c widget_signals) /\
  (forall w e, live w -> virtual_editor w = Some e ->
      teardown_calls (snd (dispose w)) =
        teardown_signals ++
        [DisconnectDocumentSignals (virtual_document e); VirtualEditorDispose e]) /\
  (forall w, live w -> virtual_editor w = None ->
      teardown_calls (snd (dispose w)) = teardown_signals).
Proof.
  split; [|split; [|split; [|split]]].
  - intros ap manager wd heap. reflexivity.
  - intros w (Hd & Hw & Hm).
    destruct (widget w) as [wd|] eqn:Ewd; [|now elim Hw].
    destruct (connection_manager w) as [cm|] eqn:Ecm; [|now elim Hm].
    destruct (virtual_editor w) as [e|] eqn:Ee.
    + rewrite (dispose_initialized w e wd cm Hd Ee Ewd Ecm). cbn [snd].
      rewrite !disconnected_app, disconnected_bundles.
      now destruct (js_get (id_path (virtual_document e)) (adapters w)).
    + rewrite (dispose_uninitialized w wd cm Hd Ee Ewd Ecm). cbn [snd].
      now rewrite disconnected_app, disconnected_bundles.
  - intros w c Hin. pose proof (dispose_widget_disconnects w I) as H.
    destruct (dispose w) as [[r w'] t]. destruct H as [H _]. simpl in Hin.
    unfold disconnected in Hin. apply in_flat_map in Hin.
    destruct Hin as (ev & Hev & Hc). rewrite Forall_forall in H.
    specialize (H ev Hev). destruct ev; simpl in Hc; try contradiction.
    destruct Hc as [<- | []]. exact H.
  - intros w e (Hd & Hw & Hm) Ee.
    destruct (widget w) as [wd|] eqn:Ewd; [|now elim Hw].
    destruct (connection_manager w) as [cm|] eqn:Ecm; [|now elim Hm].
    rewrite (dispose_initialized w e wd cm Hd Ee Ewd Ecm). cbn [snd].
    unfold teardown_calls. rewrite !filter_app, teardown_calls_bundles.
    now destruct (js_get (id_path (virtual_document e)) (adapters w)).
  - intros w (Hd & Hw & Hm) Ee.
    destruct (widget w) as [wd|] eqn:Ewd; [|now elim Hw].
    destruct (connection_manager w) as [cm|] eqn:Ecm; [|now elim Hm].
    rewrite (dispose_uninitialized w wd cm Hd Ee Ewd Ecm). cbn [snd].
    unfold teardown_calls. rewrite filter_app, teardown_calls_bundles.
    apply app_nil_r.
Qed.

Lemma connect_no_signal host s d :
  preserves (fun _ => True) not_connect (connect host s d).
Proof.
  unfold connect, on_connected, connect_adapter, create_adapter, integration,
    update_documents, document_changed.
  run_cases;
    try (apply preserves_modify; auto);
    try (apply preserves_await; auto);
    try (apply preserves_alloc; auto);
    apply preserves_tell; exact I.
Qed.

Lemma connected_none t : Forall not_connect t -> connected t = [].
Proof.
  induction 1 as [|ev t Hev _ IH]; [reflexivity|].
  destruct ev; simpl in *; try contradiction; exact IH.
Qed.

(** X13.  For every schedule [on_foreign_document_opened] resolves, and the
    signals it connects are the three signals of the foreign document;
    [on_foreign_document_closed] disconnects these three and does nothing
    else: the adapter, and with it the bundle of the foreign document, is
    left as it was. *)
Theorem foreign_document_signals host s context :
  (forall w,
      exists w' t,
        on_foreign_document_opened host s context w = (Normal tt, w', t) /\
        connected t = foreign_signals (foreign_document context)) /\
  (forall w,
      exists t,
        on_foreign_document_closed context w = (Normal tt, w, t) /\
        disconnected t = rev (foreign_signals (foreign_document context)) /\
        Forall local_event t).
Proof.
  split.
  - intros w. unfold on_foreign_document_opened. unfold bind at 1.
    rewrite connect_document_layer.
    pose proof (connect_no_signal host s (foreign_document context) w I) as H.
    destruct (connect host s (foreign_document context) w) as [[r w'] t].
    destruct H as [H _]. unfold tell. eexists _, _. split; [reflexivity|].
    rewrite !connected_app, (connected_none t H).
    unfold connection_outcome.
    destruct r as [[d' [c|]]|err]; reflexivity.
  - intros w. eexists. split; [reflexivity|]. split; [reflexivity|].
    repeat constructor.
Qed.

(** ** Content changes *)

(** X14.  On a live adapter with a virtual editor, [onContentChanged]
    requests one update of the root document, with one block per editor
    holding the value of that editor, remembers the promise, and resolves
    whether the update resolves or is rejected (a rejection is logged);
    nothing is sent to a connection. *)
Theorem onContentChanged_requests_update host s w e :
  isDisposed w = false -> virtual_editor w = Some e ->
  onContentChanged host s w =
    (Normal tt,
     while_updating s
       (set_update_finished (Some (UpdatePromise (virtual_document e))) w),
     UpdateDocuments (virtual_document e)
       (map (fun ce_editor => (ce_editor, get_editor_value host ce_editor))
            (editors host)) ::
     match update_settles s with
     | Normal _ => []
     | Abrupt err => [ConsoleWarnError err]
     end).
Proof.
  intros Hd He. unfold onContentChanged, update_documents. unfold_monad.
  rewrite Hd, He. simpl. destruct (update_settles s) as [[]|err]; reflexivity.
Qed.

(** The same handler before [init_virtual]: the update cannot be
    requested, and the handler rejects. *)
Lemma onContentChanged_uninitialized host s w :
  isDisposed w = false -> virtual_editor w = None ->
  onContentChanged host s w = (Abrupt (TypeError "this.virtual_editor"), w, []).
Proof.
  intros Hd He. unfold onContentChanged, update_documents. unfold_monad.
  now rewrite Hd, He.
Qed.

(** ** The [language] getter, further *)

Lemma mapped_without_parameters m : mapped_mime_type m -> occurs ";" m = false.
Proof.
  intros (l & [[= <- <-] | [[= <- <-] | [[= <- <-] | []]]]); reflexivity.
Qed.

Lemma with_parameters_unmapped m p :
  ~ mapped_mime_type (m ++ String ";" p).
Proof.
  intros H. apply mapped_without_parameters in H.
  rewrite occurs_app in H. simpl in H. now rewrite orb_true_r in H.
Qed.

(** X15.  The explicit map is consulted with the parameters still
    attached: as soon as a mapped mime type carries a parameter, the getter
    falls through to the generic rule and returns the subtype instead of
    the mapped identifier. *)
Theorem language_mapped_with_parameters p :
  language ("text/x-rsrc;" ++ p) = Normal "rsrc" /\
  language ("text/x-r-source;" ++ p) = Normal "r-source" /\
  language ("text/x-ipython;" ++ p) = Normal "ipython".
Proof. repeat split. Qed.

Lemma plain_remove_x_prefix s : plain s -> plain (remove_x_prefix s).
Proof.
  intros [H1 H2]. rewrite <- startsWith_x.
  destruct (startsWith "x-" s); [|split; assumption].
  destruct s as [|a [|b s]]; simpl; try (split; reflexivity).
  simpl in H1, H2.
  apply orb_false_iff in H1, H2. destruct H1 as [_ H1], H2 as [_ H2].
  apply orb_false_iff in H1, H2. destruct H1 as [_ H1], H2 as [_ H2].
  split; assumption.
Qed.

(** X16.  Whatever the getter returns is either the mime type itself or
    an identifier without [;] and [/]. *)
Theorem language_is_plain m l :
  language m = Normal l -> l = m \/ plain l.
Proof.
  intros H. apply language_complete in H.
  destruct H as [m l HIn | m type subtype rest _ _ _ Hs _ _ | m type rest].
  - right. simpl in HIn.
    destruct HIn as [[= <- <-] | [[= <- <-] | [[= <- <-] | []]]];
      split; reflexivity.
  - right. now apply plain_remove_x_prefix.
  - now left.
Qed.

(** X17.  For an unmapped mime type of type [application] or [text],
    parameters do not change the language. *)
Theorem language_ignores_parameters type rest p :
  type = "application" \/ type = "text" ->
  occurs ";" rest = false ->
  ~ mapped_mime_type (type ++ "/" ++ rest) ->
  language (type ++ "/" ++ rest ++ ";" ++ p) = language (type ++ "/" ++ rest).
Proof.
  intros Ht Hr Hm.
  assert (Htp : occurs ";" type = false) by (destruct Ht as [-> | ->]; reflexivity).
  assert (Hp : occurs ";" (type ++ "/" ++ rest) = false).
  { rewrite occurs_app, Htp. simpl. exact Hr. }
  assert (E : (type ++ "/" ++ rest ++ ";" ++ p)%string
              = ((type ++ "/" ++ rest) ++ String ";" p)%string).
  { rewrite append_assoc. reflexivity. }
  assert (Hty : hd EmptyString (split "/" (type ++ "/" ++ rest)) = type).
  { rewrite hd_split_app by (destruct Ht as [-> | ->]; reflexivity).
    simpl. apply append_empty_r. }
  assert (Hc : String.eqb type "application" || String.eqb type "text" = true)
    by (destruct Ht as [-> | ->]; reflexivity).
  remember (type ++ "/" ++ rest)%string as m eqn:Em.
  assert (H1 : hd EmptyString (split ";" (m ++ String ";" p)) = m).
  { rewrite hd_split_app by exact Hp. simpl. apply append_empty_r. }
  assert (H2 : hd EmptyString (split ";" m) = m).
  { now rewrite split_plain by exact Hp. }
  unfold language. rewrite E.
  rewrite (unmapped_get _ (with_parameters_unmapped m p)), (unmapped_get _ Hm).
  cbv zeta. rewrite H1, H2, Hty, Hc. reflexivity.
Qed.

(** ** Command contexts *)

(** X18.  Once [connect_adapter] has returned for a document, the context
    of a position inside that document names the document, the connection
    the manager holds for its id_path, and the integrations of the new
    bundle, which are bound to the connection that was passed to
    [connect_adapter]; [get_context] itself changes nothing. *)
Theorem get_context_after_connect host positions d c fs w e manager p :
  virtual_editor w = Some e -> connection_manager w = Some manager ->
  Forall (fun feature =>
            js_get (editor_name e) (editorIntegrationFactory feature) <> None)
         (chosen_features host fs) ->
  document_at_root_position positions p = d ->
  let w' := snd (fst (connect_adapter host d (Some c) fs w)) in
  exists ctx l,
    get_context positions p w' = (Normal ctx, w', []) /\
    ctx_document ctx = d /\
    ctx_connection ctx = js_get (id_path d) (connections manager) /\
    ctx_features ctx = Some l /\
    map fi_feature l = chosen_features host fs /\
    Forall (fun i => fi_virtual_document i = d /\ fi_connection i = Some c) l.
Proof.
  intros He Hm Hf Hp w'. subst w'.
  destruct (integrations_bound d (Some c) _ w e He Hf) as (l & El & Hl & Hb).
  assert (E : connect_adapter host d (Some c) fs w =
              (Normal {| ea_ref := next_ref w; ea_editor := Some e;
                         ea_virtual_document := d; ea_features := l |},
               set_adapters
                 (js_set (id_path d)
                    {| ea_ref := next_ref w; ea_editor := Some e;
                       ea_virtual_document := d; ea_features := l |}
                    (adapters w))
                 (set_next_ref (S (next_ref w)) w),
               [adapter_ready_log host; SendOpenWhenReady c (document_info d)])).
  { unfold connect_adapter, create_adapter. fold (chosen_features host fs).
    unfold bind at 1. unfold bind at 1. rewrite El.
    unfold_monad. simpl. now rewrite He. }
  rewrite E. cbn [fst snd].
  unfold get_context, get_features. unfold_monad. simpl.
  rewrite He, Hm, Hp. simpl. rewrite js_get_set_same.
  eexists _, l. repeat split; auto.
  eapply Forall_impl; [|exact Hb]. simpl. tauto.
Qed.

(** ** Reload and late events *)

(** X19.  Before a reload, a closed connection of the root document
    disposes the adapter; after the reload the same event, now about the
    replaced document, is ignored, because the replacement is a new
    object. *)
Theorem reload_connection_forgets_old_document host s w e manager c :
  virtual_editor w = Some e -> connection_manager w = Some manager ->
  vd_ref (virtual_document e) < next_ref w ->
  (forall w', virtual_editor (while_connecting s w') = virtual_editor w') ->
  (forall w', virtual_editor (while_updating s w') = virtual_editor w') ->
  let data := {| data_virtual_document := virtual_document e;
                 data_connection := c |} in
  let w' := snd (fst (reload_connection host s w)) in
  is_root_document w (virtual_document e) = true /\
  on_connection_closed data w' = (Normal tt, w', [closed_log data]).
Proof.
  intros He Hm Hlt H1 H2 data w'. split.
  - unfold is_root_document. rewrite He. apply Nat.eqb_refl.
  - unfold on_connection_closed. unfold_monad.
    assert (Hr : is_root_document w' (data_virtual_document data) = false).
    { unfold is_root_document. subst w'.
      rewrite (reload_connection_installs host s w e manager He Hm H1 H2).
      simpl. apply Nat.eqb_neq. lia. }
    now rewrite Hr.
Qed.

(** ** Initialization *)

(** X20.  Save notifications start with [init_virtual]: before it a
    completed save sends nothing; after a successful [init_virtual] the
    same event notifies every connection of the manager with the
    document-info of the document just created.  When no virtual editor
    implementation is found, [init_virtual] logs an error and the save is
    still ignored. *)
Theorem init_virtual_enables_save host w manager :
  virtual_editor w = None -> connection_manager w = Some manager ->
  let w' := snd (fst (init_virtual host w)) in
  on_save_state completed w = (Normal tt, w, []) /\
  on_save_state completed w' =
    (Normal tt, w',
     match findBestImplementation host (editors host) with
     | Some _ =>
         map (fun c => SendSaved c (document_info (new_virtual_document host)))
             (js_values (connections manager))
     | None => []
     end).
Proof.
  intros He Hm w'. split.
  - unfold on_save_state. unfold_monad. now rewrite He.
  - subst w'. unfold init_virtual, create_virtual_document, create_virtual_editor.
    unfold_monad. simpl.
    destruct (findBestImplementation host (editors host)) as [name|]; simpl.
    + unfold on_save_state. unfold bind at 1. unfold this at 1. simpl.
      unfold bind at 1. unfold deref. simpl. rewrite Hm. unfold ret at 1.
      rewrite for_of_stable
        with (f := fun c => SendSaved c (document_info (new_virtual_document host))).
      * reflexivity.
      * intros c. reflexivity.
    + unfold on_save_state. unfold_monad. simpl. now rewrite He.
Qed.

(** ** One bundle per id_path, along every handler *)

(** X21.  Disposal of an initialized adapter disposes every bundle of the
    map, and each of them once. *)
Theorem dispose_releases_each_bundle_once w e :
  one_bundle_per_document w -> live w -> virtual_editor w = Some e ->
  NoDup (disposed (snd (dispose w))) /\
  forall k a, js_get k (adapters w) = Some a ->
              In (ea_ref a) (disposed (snd (dispose w))).
Proof.
  intros Hb (Hd & Hw & Hm) He.
  destruct (widget w) as [wd|] eqn:Ewd; [|now elim Hw].
  destruct (connection_manager w) as [cm|] eqn:Ecm; [|now elim Hm].
  split; [exact (dispose_releases_once w e wd cm Hb Hd He Ewd Ecm)|].
  intros k a Ha.
  rewrite (dispose_initialized w e wd cm Hd He Ewd Ecm). cbn [snd].
  rewrite !disposed_app, disposed_bundles.
  destruct (String.eqb (id_path (virtual_document e)) k) eqn:E.
  - apply String.eqb_eq in E. subst k. rewrite Ha. simpl. auto.
  - apply in_or_app. right. apply in_or_app. right. apply in_or_app. left.
    apply in_map. unfold js_values. apply in_map_iff. exists (k, a).
    split; [reflexivity|]. unfold js_delete. apply filter_In.
    split; [exact (js_get_In _ _ _ Ha)|]. simpl. now rewrite E.
Qed.

Lemma connect_adapter_keeps_one_bundle host d connection fs :
  preserves one_bundle_per_document (fun _ => True)
    (connect_adapter host d connection fs).
Proof.
  intros w Hw. pose proof (connect_adapter_one_bundle host d connection fs w Hw) as H.
  destruct (connect_adapter host d connection fs w) as [[r w'] t].
  split; [|exact (proj1 H)].
  apply Forall_forall. auto.
Qed.


Lemma one_bundle_set_isConnected b w :
  one_bundle_per_document w -> one_bundle_per_document (set_isConnected b w).
Proof. auto. Qed.

Lemma one_bundle_set_virtual_editor e w :
  one_bundle_per_document w -> one_bundle_per_document (set_virtual_editor e w).
Proof. auto. Qed.

Lemma one_bundle_set_update_finished p w :
  one_bundle_per_document w -> one_bundle_per_document (set_update_finished p w).
Proof. auto. Qed.

Lemma one_bundle_alloc w :
  one_bundle_per_document w ->
  one_bundle_per_document (set_next_ref (S (next_ref w)) w).
Proof.
  intros H. unfold one_bundle_per_document. simpl.
  eapply bundles_ok_le; eauto.
Qed.

Lemma one_bundle_clear w :
  one_bundle_per_document w -> one_bundle_per_document (set_adapters [] w).
Proof. intros _. repeat split; constructor. Qed.

Lemma one_bundle_release w :
  one_bundle_per_document w -> one_bundle_per_document (release w).
Proof. auto. Qed.

Lemma one_bundle_delete k w :
  one_bundle_per_document w ->
  one_bundle_per_document (set_adapters (js_delete k (adapters w)) w).
Proof. intros H. unfold one_bundle_per_document. simpl. now apply bundles_ok_delete. Qed.

Create HintDb bundles discriminated.
#[local] Hint Resolve one_bundle_set_isConnected one_bundle_set_virtual_editor
  one_bundle_set_update_finished one_bundle_alloc one_bundle_clear
  one_bundle_release one_bundle_delete : bundles.

Ltac run_invariant :=
  run_cases;
  try match goal with
      | |- preserves _ _ (tell _) => apply preserves_tell; exact I
      | |- preserves _ _ (modify _) =>
          apply preserves_modify; intros ? ?; cbv beta; auto with bundles
      | |- preserves _ _ (await _ _) => apply preserves_await; auto
      | |- preserves _ _ alloc =>
          apply preserves_alloc; intros ? ?; auto with bundles
      end.

(** X22.  At most one bundle per id_path and no bundle under two keys:
    the invariant of the adapters map is kept by every handler of the
    class, along every schedule whose interleaved handlers keep it. *)
Theorem one_bundle_along_every_handler host s :
  (forall w, one_bundle_per_document w ->
             one_bundle_per_document (while_connecting s w)) ->
  (forall w, one_bundle_per_document w ->
             one_bundle_per_document (while_updating s w)) ->
  keeps_one_bundle dispose /\
  (forall data, keeps_one_bundle (on_connection_closed data)) /\
  keeps_one_bundle (init_virtual host) /\
  (forall state, keeps_one_bundle (on_save_state state)) /\
  (forall d doc is_init, keeps_one_bundle (document_changed d doc is_init)) /\
  (forall data, keeps_one_bundle (on_connected host s data)) /\
  (forall d send_open, keeps_one_bundle (connect_document host s d send_open)) /\
  keeps_one_bundle (reload_connection host s) /\
  (forall context, keeps_one_bundle (on_foreign_document_opened host s context)) /\
  (forall context, keeps_one_bundle (on_foreign_document_closed context)) /\
  keeps_one_bundle (onContentChanged host s).
Proof.
  intros K1 K2. unfold keeps_one_bundle.
  assert (Hdispose : preserves one_bundle_per_document (fun _ => True) dispose).
  { unfold dispose, disconnect_adapter. run_invariant. }
  assert (Hchanged : forall d doc is_init,
             preserves one_bundle_per_document (fun _ => True)
               (document_changed d doc is_init)).
  { intros. apply document_changed_frame. }
  assert (Hconnected : forall data,
             preserves one_bundle_per_document (fun _ => True)
               (on_connected host s data)).
  { intros data. unfold on_connected.
    apply preserves_bind; [apply connect_adapter_keeps_one_bundle|intros ?].
    unfold update_documents. run_invariant. apply Hchanged. }
  assert (Hdoc : forall d send_open,
             preserves one_bundle_per_document (fun _ => True)
               (connect_document host s d send_open)).
  { intros d send_open.
    unfold connect_document, connect_document_signals, connect_document_open,
      connect.
    run_invariant. apply Hconnected. }
  split; [exact Hdispose|].
  split; [intros data; unfold on_connection_closed; run_invariant;
          apply Hdispose|].
  split; [unfold init_virtual, create_virtual_document; run_invariant|].
  split; [intros state; unfold on_save_state; run_invariant|].
  split; [exact Hchanged|].
  split; [exact Hconnected|].
  split; [exact Hdoc|].
  split.
  { unfold reload_connection, create_virtual_document. run_invariant.
    apply Hdoc. }
  split; [intros context; unfold on_foreign_document_opened; run_invariant;
          apply Hdoc|].
  split; [intros context; unfold on_foreign_document_closed; run_invariant|].
  unfold onContentChanged, update_documents. run_invariant.
Qed.

(** ** Further instances on the notebook adapter *)

Lemma busy_status_tracked : StatusMessage.tracked busy_status.
Proof. apply tracked_set. apply tracked_constructor. Qed.

Lemma notebook_adapter_live : live notebook_adapter.
Proof. repeat split; discriminate. Qed.

Lemma notebook_constructible : constructible notebook_host notebook_editor.
Proof. repeat constructor. discriminate. Qed.

Lemma keeps_adapter_id : keeps_adapter (fun w => w).
Proof. intros w. repeat split; auto. Qed.

Lemma status_message_set_replaces_timer_witness :
  let s' := fst (StatusMessage.set "Ready" (-1) busy_status) in
  StatusMessage.message (fst s') = "Ready" /\
  StatusMessage.pending (snd s') = [].
Proof.
  destruct (status_message_set_replaces_timer "Ready" (-1)%Z busy_status
              busy_status_tracked) as (H1 & _ & H3 & _).
  split; [exact H1 | exact H3].
Defined.

Lemma status_message_expires_witness :
  let s' := fst (StatusMessage.set "Saved" 500 busy_status) in
  let r := StatusMessage.fire (StatusMessage.next_handle (snd busy_status)) s' in
  StatusMessage.message (fst (fst r)) = "" /\
  snd r = [StatusMessage.Changed ""] /\
  StatusMessage.pending (snd (fst r)) = [].
Proof.
  apply (status_message_expires "Saved" 500%Z busy_status busy_status_tracked).
  discriminate.
Defined.

Lemma connect_adapter_get_features_witness :
  exists a w' t,
    connect_adapter notebook_host foreign_r_document (Some new_connection) None
      notebook_adapter = (Normal a, w', t) /\
    get_features w' foreign_r_document = Some (ea_features a) /\
    map fi_feature (ea_features a) = [hover_feature].
Proof.
  destruct (connect_adapter_get_features notebook_host foreign_r_document
              new_connection None notebook_adapter notebook_editor eq_refl
              notebook_constructible) as (a & w' & t & E & Hg & Hm & _).
  exists a, w', t. auto.
Defined.

Lemma connect_adapter_fails_clean_witness :
  exists what,
    connect_adapter notebook_host foreign_r_document (Some new_connection) None
      fresh_adapter = (Abrupt (TypeError what), fresh_adapter, []).
Proof.
  apply (connect_adapter_fails_clean notebook_host foreign_r_document
           (Some new_connection) None fresh_adapter).
  left. split; [reflexivity | discriminate].
Defined.

Lemma connect_document_without_connection_witness :
  exists n err t,
    connect_document notebook_host no_connection foreign_r_document true
      notebook_adapter =
      (Normal tt, set_next_ref n notebook_adapter,
       connecting_events notebook_host foreign_r_document ++
       connect_request notebook_host foreign_r_document :: t ++
       [ConsoleWarnError err] ++ [not_opened_warning foreign_r_document]) /\
    (t = [] \/ t = [adapter_ready_log notebook_host]).
Proof.
  apply (connect_document_without_connection notebook_host no_connection
           foreign_r_document true notebook_adapter notebook_manager);
    reflexivity.
Defined.

Lemma connect_document_update_rejected_witness :
  exists a,
    ea_ref a = 4 /\
    fst (fst (connect_document notebook_host update_fails foreign_r_document
                true notebook_adapter)) = Normal tt.
Proof.
  destruct (connect_document_update_rejected notebook_host update_fails
              foreign_r_document true notebook_adapter notebook_manager
              new_connection notebook_editor (ExternalError "update failed")
              eq_refl eq_refl eq_refl eq_refl notebook_constructible eq_refl)
    as (a & Hr & E).
  exists a. split; [exact Hr|]. now rewrite E.
Defined.

Lemma connect_document_open_requests_witness :
  opened (snd (connect_document notebook_host calm foreign_r_document false
                 notebook_adapter)) =
    [(new_connection, document_info foreign_r_document)].
Proof.
  apply (connect_document_open_requests notebook_host calm foreign_r_document
           false notebook_adapter notebook_manager new_connection
           notebook_editor eq_refl eq_refl eq_refl notebook_constructible
           eq_refl eq_refl keeps_adapter_id keeps_adapter_id).
Defined.

Lemma disposed_adapter_ignores_signals_witness :
  isDisposed disposed_adapter = true /\
  dispose disposed_adapter = (Normal tt, disposed_adapter, []).
Proof.
  destruct (disposed_adapter_ignores_signals notebook_host calm notebook_adapter
              notebook_editor notebook_adapter_live eq_refl) as (H1 & H2 & _).
  split; [exact H1 | exact H2].
Defined.

Lemma disposed_adapter_rejects_commands_witness :
  get_widget_id disposed_adapter =
    (Abrupt (TypeError "this.widget"), disposed_adapter, []).
Proof.
  exact (proj2 (disposed_adapter_rejects_commands foreign_positions
                  notebook_adapter notebook_editor notebook_adapter_live
                  eq_refl)).
Defined.

Lemma onContentChanged_requests_update_witness :
  onContentChanged notebook_host update_fails notebook_adapter =
    (Normal tt,
     set_update_finished (Some (UpdatePromise notebook_document)) notebook_adapter,
     [UpdateDocuments notebook_document [(0, "print(1)")];
      ConsoleWarnError (ExternalError "update failed")]).
Proof.
  apply (onContentChanged_requests_update notebook_host update_fails
           notebook_adapter notebook_editor); reflexivity.
Defined.

Lemma language_is_plain_witness :
  "julia" = "application/x-julia" \/ plain "julia".
Proof.
  apply (language_is_plain "application/x-julia" "julia"). reflexivity.
Defined.

Lemma language_ignores_parameters_witness :
  language ("text" ++ "/" ++ "x-python" ++ ";" ++ "charset=utf-8") =
  language ("text" ++ "/" ++ "x-python").
Proof.
  apply (language_ignores_parameters "text" "x-python" "charset=utf-8").
  - right. reflexivity.
  - reflexivity.
  - intros (l & [[=] | [[=] | [[=] | []]]]).
Defined.

Lemma get_context_after_connect_witness :
  let w' := snd (fst (connect_adapter notebook_host foreign_r_document
                        (Some new_connection) None notebook_adapter)) in
  exists ctx l,
    get_context foreign_positions {| root_line := 0; root_ch := 0 |} w' =
      (Normal ctx, w', []) /\
    ctx_document ctx = foreign_r_document /\
    ctx_connection ctx = None /\
    ctx_features ctx = Some l /\
    Forall (fun i => fi_virtual_document i = foreign_r_document /\
                     fi_connection i = Some new_connection) l.
Proof.
  destruct (get_context_after_connect notebook_host foreign_positions
              foreign_r_document new_connection None notebook_adapter
              notebook_editor notebook_manager {| root_line := 0; root_ch := 0 |}
              eq_refl eq_refl notebook_constructible eq_refl)
    as (ctx & l & E & Hd & Hc & Hf & _ & Hb).
  exists ctx, l. auto.
Defined.

Lemma reload_connection_forgets_old_document_witness :
  let data := {| data_virtual_document := notebook_document;
                 data_connection := Some python_connection |} in
  let w' := snd (fst (reload_connection notebook_host calm notebook_adapter)) in
  is_root_document notebook_adapter notebook_document = true /\
  on_connection_closed data w' = (Normal tt, w', [closed_log data]).
Proof.
  apply (reload_connection_forgets_old_document notebook_host calm
           notebook_adapter notebook_editor notebook_manager
           (Some python_connection)); auto.
  simpl. lia.
Defined.

Lemma init_virtual_enables_save_witness :
  let w' := snd (fst (init_virtual notebook_host unopened_adapter)) in
  on_save_state completed unopened_adapter = (Normal tt, unopened_adapter, []) /\
  on_save_state completed w' =
    (Normal tt, w',
     [SendSaved python_connection (document_info renamed_document)]).
Proof.
  apply (init_virtual_enables_save notebook_host unopened_adapter
           notebook_manager); reflexivity.
Defined.

Lemma dispose_releases_each_bundle_once_witness :
  NoDup (disposed (snd (dispose notebook_adapter))) /\
  forall k a, js_get k (adapters notebook_adapter) = Some a ->
              In (ea_ref a) (disposed (snd (dispose notebook_adapter))).
Proof.
  apply (dispose_releases_each_bundle_once notebook_adapter notebook_editor
           notebook_adapter_one_bundle notebook_adapter_live eq_refl).
Defined.

Lemma one_bundle_along_every_handler_witness :
  keeps_one_bundle (reload_connection notebook_host calm).
Proof.
  destruct (one_bundle_along_every_handler notebook_host calm
              (fun w H => H) (fun w H => H))
    as (_ & _ & _ & _ & _ & _ & _ & H & _).
  exact H.
Defined.

Lemma connect_adapter_replaces_undisposed_witness :
  exists a w' t,
    connect_adapter notebook_host notebook_document (Some new_connection) None
      notebook_adapter = (Normal a, w', t) /\
    ea_ref a <> ea_ref notebook_bundle /\
    js_get "nb#py" (adapters w') = Some a /\
    ~ In (ea_ref notebook_bundle) (disposed t) /\
    ~ In (ea_ref notebook_bundle) (disposed (snd (dispose w'))).
Proof.
  destruct (connect_adapter_replaces_undisposed notebook_host notebook_document
              new_connection None notebook_adapter notebook_editor
              notebook_bundle notebook_adapter_one_bundle
              notebook_adapter_live eq_refl notebook_constructible eq_refl)
    as (a & w' & t & E & Hne & Hget & _ & _ & Ht & _ & Hd).
  exists a, w', t. auto.
Defined.

Lemma dispose_signal_wiring_witness :
  disconnected (snd (dispose notebook_adapter)) = widget_signals /\
  teardown_calls (snd (dispose notebook_adapter)) =
    teardown_signals ++
    [DisconnectDocumentSignals notebook_document;
     VirtualEditorDispose notebook_editor] /\
  teardown_calls (snd (dispose unopened_adapter)) = teardown_signals.
Proof.
  destruct dispose_signal_wiring as (_ & H2 & _ & H4 & H5).
  split; [exact (H2 notebook_adapter notebook_adapter_live)|].
  split; [exact (H4 notebook_adapter notebook_editor notebook_adapter_live
                   eq_refl)|].
  apply (H5 unopened_adapter); [repeat split; discriminate | reflexivity].
Defined.
